(** * smart_duengen: the ingestion pipeline of [backend_fastapi.py]

    A shallow embedding of the three functions behind the HTTP endpoints,
    [shape_file_conversion], [process_plan_geojson] and
    [complete_project_file], together with the statements of the
    specification that concern them.

    Conventions.
    - Python [str] is [string]; the tests made on file names and CRS
      descriptors only look at ASCII characters, so the byte view agrees
      with Python's code-point view on them.
    - Python numbers are exact rationals [Q]; the rounding of binary
      floating point is not modelled.
    - A Python call either returns or raises: [result A].
    - geopandas, pyproj, shapely, zipfile and the file system are not part
      of the repository.  What they compute is an interface, [Backend];
      the two frame methods whose control flow matters here, [set_crs] and
      [to_crs], are written out over it as geopandas documents them. *)

From Stdlib Require Import Ascii String QArith Qabs.
From stdpp Require Import gmap strings list.

Close Scope Q_scope.
Open Scope string_scope.

(** ** Exceptions and results *)

Inductive exn : Type :=
| HTTPException (status_code : Z) (detail : string)
| IndexError
| KeyError (key : string)
| ValueError
| TypeError
| ValidationError
| OtherError (cls : string).

Inductive result (A : Type) : Type :=
| Ok (a : A)
| Raise (e : exn).
Arguments Ok {A} a.
Arguments Raise {A} e.

#[global] Instance result_ret : MRet result := fun _ a => Ok a.
#[global] Instance result_bind : MBind result := fun _ _ f m =>
  match m with
  | Ok a => f a
  | Raise e => Raise e
  end.

(** An exception the code raises on purpose, as opposed to one that escapes
    from an operation that went wrong. *)
Definition is_explicit (e : exn) : bool :=
  match e with
  | HTTPException _ _ => true
  | _ => false
  end.

(** The error kinds of the specification that the code raises, under the
    status and detail the code gives them. *)
Definition NoSpatialData : exn := HTTPException 404 "No shape data provided.".
Definition AmbiguousInput : exn := HTTPException 500 "Too many files.".
Definition AmbiguousArchiveContent : exn := HTTPException 500 "Too many files.".
Definition NoUniqueRateKey : exn := HTTPException 404 "No unique rate key found.".
Definition MissingBoundaryAndPlan : exn :=
  HTTPException 404 "No boundaries or plan provided.".

(** ** Strings *)

Module Str.

Definition is_upper (c : ascii) : bool :=
  (65 <=? nat_of_ascii c)%nat && (nat_of_ascii c <=? 90)%nat.

Definition is_digit (c : ascii) : bool :=
  (48 <=? nat_of_ascii c)%nat && (nat_of_ascii c <=? 57)%nat.

Definition lower_char (c : ascii) : ascii :=
  if is_upper c then ascii_of_nat (nat_of_ascii c + 32) else c.

(** [s.lower()] *)
Fixpoint lower (s : string) : string :=
  match s with
  | EmptyString => EmptyString
  | String c s' => String (lower_char c) (lower s')
  end.

(** [s.startswith(p)] *)
Fixpoint startswith (s p : string) : bool :=
  match p, s with
  | EmptyString, _ => true
  | String _ _, EmptyString => false
  | String a p', String b s' => Ascii.eqb a b && startswith s' p'
  end.

(** [s.endswith(p)] *)
Definition endswith (s p : string) : bool :=
  (String.length p <=? String.length s)%nat
  && String.eqb (substring (String.length s - String.length p)
                           (String.length p) s) p.

(** [s.rfind(c)] for a one-character [c]: the last index, or [-1]. *)
Fixpoint rfind_from (c : ascii) (s : string) (i last : Z) : Z :=
  match s with
  | EmptyString => last
  | String a s' =>
      rfind_from c s' (i + 1) (if Ascii.eqb a c then i else last)
  end.
Definition rfind (s : string) (c : ascii) : Z := rfind_from c s 0 (-1).

(** [s[:i]] and [s[i:]] for [0 <= i]. *)
Definition upto (i : nat) (s : string) : string := substring 0 i s.
Definition from (i : nat) (s : string) : string :=
  substring i (String.length s - i) s.

(** The loop of [genericpath._splitext] that skips the leading dots of the
    file name: is there a character other than the dot in
    [p[filenameIndex : filenameIndex + n]]? *)
Fixpoint splitext_scan (p : string) (filenameIndex n : nat) : bool :=
  match n with
  | O => false
  | S n' =>
      if negb (String.eqb (substring filenameIndex 1 p) ".") then true
      else splitext_scan p (S filenameIndex) n'
  end.

(** [os.path.splitext(p)] (posixpath). *)
Definition splitext (p : string) : string * string :=
  let sepIndex := rfind p "/"%char in
  let dotIndex := rfind p "."%char in
  if (sepIndex <? dotIndex)%Z
     && splitext_scan p (Z.to_nat (sepIndex + 1))
                        (Z.to_nat (dotIndex - (sepIndex + 1)))
  then (upto (Z.to_nat dotIndex) p, from (Z.to_nat dotIndex) p)
  else (p, EmptyString).

(** [os.path.join(a, b)] (posixpath). *)
Definition join (a b : string) : string :=
  if startswith b "/" then b
  else if String.eqb a EmptyString || endswith a "/" then a +:+ b
  else a +:+ "/" +:+ b.

End Str.

(** ** The CRS identifier: [epsg_pattern]

    [re.compile("^(?:EPSG|epsg):[0-9]{4,5}$").match(s)].  [match] anchors at
    the start; the alternatives are tried in order; the counted repetition
    is greedy, five digits before four; [$] accepts the end of the string
    and also the position before a line feed that ends the string. *)

Module Epsg.

Definition LF : string := String (ascii_of_nat 10) EmptyString.

(** [p] matched literally at the head of [s]: the rest of [s]. *)
Fixpoint literal (p s : string) : option string :=
  match p, s with
  | EmptyString, _ => Some s
  | String _ _, EmptyString => None
  | String a p', String b s' =>
      if Ascii.eqb a b then literal p' s' else None
  end.

(** [[0-9]{n}] at the head of [s]: the rest of [s]. *)
Fixpoint digits (n : nat) (s : string) : option string :=
  match n with
  | O => Some s
  | S n' =>
      match s with
      | EmptyString => None
      | String c s' => if Str.is_digit c then digits n' s' else None
      end
  end.

Fixpoint all_digits (s : string) : bool :=
  match s with
  | EmptyString => true
  | String c s' => Str.is_digit c && all_digits s'
  end.

(** [$] *)
Definition at_end (s : string) : bool :=
  String.eqb s EmptyString || String.eqb s LF.

Definition ends_after (o : option string) : bool :=
  match o with
  | Some rest => at_end rest
  | None => false
  end.

Definition authority (s : string) : option string :=
  match literal "EPSG" s with
  | Some rest => Some rest
  | None => literal "epsg" s
  end.

(** [epsg_pattern.match(s) is not None] *)
Definition matches (s : string) : bool :=
  match authority s with
  | None => false
  | Some s1 =>
      match literal ":" s1 with
      | None => false
      | Some s2 => ends_after (digits 5 s2) || ends_after (digits 4 s2)
      end
  end.

End Epsg.

(** ** Python values and the data model *)

(** What a property of a feature can hold.  [bool] is a subclass of [int] in
    Python, so a boolean takes part in arithmetic as 0 or 1. *)
Inductive pyval : Type :=
| VNum (q : Q)
| VBool (b : bool)
| VStr (s : string)
| VNone.

Definition as_number (v : pyval) : option Q :=
  match v with
  | VNum q => Some q
  | VBool true => Some 1%Q
  | VBool false => Some 0%Q
  | VStr _ | VNone => None
  end.

Definition num (v : pyval) : Q := default 0%Q (as_number v).

Definition Qlt_bool (x y : Q) : bool := negb (Qle_bool y x).

(** [d[k]] *)
Definition getitem (d : gmap string pyval) (k : string) : result pyval :=
  match d !! k with
  | Some v => Ok v
  | None => Raise (KeyError k)
  end.

(** [v > 0] *)
Definition gt0 (v : pyval) : result bool :=
  match as_number v with
  | Some q => Ok (Qlt_bool 0 q)
  | None => Raise TypeError
  end.

(** [v / m] *)
Definition truediv (v m : pyval) : result pyval :=
  match as_number v, as_number m with
  | Some x, Some y =>
      if Qeq_bool y 0 then Raise (OtherError "ZeroDivisionError")
      else Ok (VNum (x / y)%Q)
  | _, _ => Raise TypeError
  end.

(** [min(l)] and [max(l)]: the first smallest, the first largest element.
    They are only called on values that passed [gt0], which are numbers. *)
Fixpoint min_from (best : pyval) (l : list pyval) : pyval :=
  match l with
  | [] => best
  | v :: l' => min_from (if Qlt_bool (num v) (num best) then v else best) l'
  end.

Fixpoint max_from (best : pyval) (l : list pyval) : pyval :=
  match l with
  | [] => best
  | v :: l' => max_from (if Qlt_bool (num best) (num v) then v else best) l'
  end.

Definition py_min (l : list pyval) : result pyval :=
  match l with
  | [] => Raise ValueError
  | v :: l' => Ok (min_from v l')
  end.

Definition py_max (l : list pyval) : result pyval :=
  match l with
  | [] => Raise ValueError
  | v :: l' => Ok (max_from v l')
  end.

Inductive GeometryType : Type :=
| Point | MultiPoint | LineString | MultiLineString | Polygon | MultiPolygon.

Inductive Coordinates : Type :=
| Position (c : list Q)
| Positions (c : list (list Q))
| Rings (c : list (list (list Q)))
| Polygons (c : list (list (list (list Q)))).

Record Geometry : Type := {
  type : GeometryType;
  coordinates : Coordinates
}.

(** [Feature] and [FeatureCollection]; their [type] field has one value. *)
Record Feature : Type := {
  geometry : Geometry;
  properties : gmap string pyval
}.

Record FeatureCollection : Type := {
  features : list Feature
}.

Record Settings : Type := {
  throwing_range : Q;
  min_speed : Q;
  default_rate : Q;
  default_speed : Q
}.

Definition default_settings : Settings :=
  {| throwing_range := 15; min_speed := 1; default_rate := 0;
     default_speed := 22 # 10 |}.

Record ProjectFile : Type := {
  boundaries : option FeatureCollection;
  plan : option FeatureCollection;
  settings : Settings
}.

Record UploadFile : Type := {
  filename : string;
  file : list Byte.byte
}.

(** The dictionary [shape_file_conversion] returns and
    [process_plan_geojson] completes. *)
Record Plan : Type := {
  file_name : string;
  geojson : FeatureCollection;
  input_crs : string;
  original_crs : option string;
  min_rate : option pyval;
  max_rate : option pyval
}.

(** A geometry as [json.loads] gives it, before pydantic has seen it. *)
Inductive JsonGeometry : Type :=
| JNull
| JCollection
| JGeometry (kind : string) (coords : Coordinates).

Definition geometry_type_of (kind : string) : option GeometryType :=
  if String.eqb kind "Point" then Some Point
  else if String.eqb kind "MultiPoint" then Some MultiPoint
  else if String.eqb kind "LineString" then Some LineString
  else if String.eqb kind "MultiLineString" then Some MultiLineString
  else if String.eqb kind "Polygon" then Some Polygon
  else if String.eqb kind "MultiPolygon" then Some MultiPolygon
  else None.

(** The six literals of the [Geometry] model. *)
Definition type_name (t : GeometryType) : string :=
  match t with
  | Point => "Point"
  | MultiPoint => "MultiPoint"
  | LineString => "LineString"
  | MultiLineString => "MultiLineString"
  | Polygon => "Polygon"
  | MultiPolygon => "MultiPolygon"
  end.

(** [Feature(type="Feature", geometry=g)]: the validation of the [Geometry]
    model, and [properties] from its default factory. *)
Definition make_feature (g : JsonGeometry) : result Feature :=
  match g with
  | JGeometry kind coords =>
      match geometry_type_of kind with
      | Some t =>
          Ok {| geometry := {| type := t; coordinates := coords |};
                properties := ∅ |}
      | None => Raise ValidationError
      end
  | JNull | JCollection => Raise ValidationError
  end.

(** ** The libraries *)

Record GeoDataFrame (C : Type) : Type := {
  crs : option C;
  rows : list Feature
}.
Arguments crs {C} g.
Arguments rows {C} g.

Class Backend : Type := {
  (** pyproj: [CRS.from_user_input], [==] and [.srs] *)
  CRS : Type;
  crs_from_user_input : string -> result CRS;
  crs_eq : CRS -> CRS -> bool;
  crs_srs : CRS -> string;
  (** the reprojection of one geometry from a CRS to another *)
  transform : CRS -> CRS -> Geometry -> Geometry;
  (** [tempfile.TemporaryDirectory] and what is written into it *)
  Disk : Type;
  dir_name : string;
  fresh_dir : Disk;
  write : Disk -> string -> list Byte.byte -> result Disk;
  (** [zipfile.ZipFile(path).filelist], the names *)
  zip_filelist : Disk -> string -> result (list string);
  (** [geopandas.read_file(path)] *)
  read_file : Disk -> string -> result (GeoDataFrame CRS);
  (** [from_features], [unary_union], [GeoDataFrame(geometry=[...])],
      [to_json] and [json.loads]: the geometry of the one row *)
  unary_union : list Geometry -> result JsonGeometry
}.

Section Pipeline.
Context {B : Backend}.

(** [GeoDataFrame.set_crs(crs)], with [allow_override] left at its default
    [False]: geopandas refuses to replace a CRS the frame already has by
    one that is not equal to it. *)
Definition set_crs (g : GeoDataFrame CRS) (crs_in : string)
  : result (GeoDataFrame CRS) :=
  c ← crs_from_user_input crs_in;
  match crs g with
  | Some c0 =>
      if crs_eq c0 c then Ok {| crs := Some c; rows := rows g |}
      else Raise ValueError
  | None => Ok {| crs := Some c; rows := rows g |}
  end.

Definition reproject (src dst : CRS) (f : Feature) : Feature :=
  {| geometry := transform src dst (geometry f);
     properties := properties f |}.

(** [GeoDataFrame.to_crs(crs)]: a frame without CRS cannot be
    transformed. *)
Definition to_crs (g : GeoDataFrame CRS) (crs_out : string)
  : result (GeoDataFrame CRS) :=
  match crs g with
  | None => Raise ValueError
  | Some src =>
      dst ← crs_from_user_input crs_out;
      Ok {| crs := Some dst; rows := reproject src dst <$> rows g |}
  end.

(** [json.loads(g.to_json())] *)
Definition to_json (g : GeoDataFrame CRS) : FeatureCollection :=
  {| features := rows g |}.

Definition spatial_extension (ext : string) : bool :=
  bool_decide (ext ∈ [".shp"; ".zip"; ".json"; ".geojson"]).

Definition is_candidate (f : UploadFile) : bool :=
  spatial_extension (Str.lower (Str.splitext (filename f)).2).

(** The entries of an archive the code keeps. *)
Definition is_shp_entry (name : string) : bool :=
  Str.endswith (Str.lower name) ".shp"
  && negb (Str.startswith name "__MACOSX/")
  && negb (Str.startswith name "Rx/").

Definition shp_in_zip (names : list string) : list string :=
  List.filter is_shp_entry names.

Fixpoint write_files (d : Disk) (files : list UploadFile) : result Disk :=
  match files with
  | [] => Ok d
  | f :: files' =>
      d' ← write d (Str.join dir_name (filename f)) (file f);
      write_files d' files'
  end.

(** Lines 116-130: the frame read from the sole candidate. *)
Definition read_candidate (d : Disk) (file_name : string)
  : result (GeoDataFrame CRS) :=
  let file_path := Str.join dir_name file_name in
  if Str.endswith (Str.lower file_name) ".zip" then
    names ← zip_filelist d file_path;
    let selected := shp_in_zip names in
    if (1 <? length selected)%nat then
      Raise (HTTPException 500 "Too many files.")
    else
      match selected with
      | [] => Raise IndexError
      | entry :: _ => read_file d (file_path +:+ "!" +:+ entry)
      end
  else read_file d file_path.

(** Lines 131-137: the CRS the frame came with, as [original_crs], and the
    frame the reprojection starts from. *)
Definition resolve_crs (g : GeoDataFrame CRS) (input_crs : string)
  : result (option string * GeoDataFrame CRS) :=
  match crs g with
  | Some c =>
      let original_crs := crs_srs c in
      if Epsg.matches original_crs then Ok (Some original_crs, g)
      else g' ← set_crs g input_crs; Ok (Some original_crs, g')
  | None => g' ← set_crs g input_crs; Ok (None, g')
  end.

Definition shape_file_conversion
    (files : list UploadFile) (input_crs : string) : result Plan :=
  let shapefiles := filename <$> List.filter is_candidate files in
  match shapefiles with
  | [] => Raise (HTTPException 404 "No shape data provided.")
  | _ :: _ :: _ => Raise (HTTPException 500 "Too many files.")
  | [file_name] =>
      d ← write_files fresh_dir files;
      myshpfile ← read_candidate d file_name;
      '(original_crs, myshpfile) ← resolve_crs myshpfile input_crs;
      out ← to_crs myshpfile "EPSG:4326";
      Ok {| file_name := (Str.splitext file_name).1;
            geojson := to_json out;
            input_crs := input_crs;
            original_crs := original_crs;
            min_rate := None;
            max_rate := None |}
  end.

(** [complete_project_file] *)
Definition complete_project_file (project_file : ProjectFile)
  : result ProjectFile :=
  match boundaries project_file with
  | Some _ => Ok project_file
  | None =>
      match plan project_file with
      | None => Raise (HTTPException 404 "No boundaries or plan provided.")
      | Some p =>
          merged ← unary_union (geometry <$> features p);
          feature ← make_feature merged;
          Ok {| boundaries := Some {| features := [feature] |};
                plan := plan project_file;
                settings := settings project_file |}
      end
  end.

End Pipeline.

(** ** The rate resolver: [process_plan_geojson] *)

Definition rate_aliases : gset string :=
  {[ "RATE"; "Menge"; "rate"; "fertilizer" ]}.

Definition known_rate_keys (first : gmap string pyval) : gset string :=
  dom first ∩ rate_aliases.

(** The list comprehension of lines 157-161. *)
Fixpoint rate_values (rate_key : string) (fs : list Feature)
  : result (list pyval) :=
  match fs with
  | [] => Ok []
  | f :: fs' =>
      v ← getitem (properties f) rate_key;
      positive ← gt0 v;
      rest ← rate_values rate_key fs';
      Ok (if positive : bool then v :: rest else rest)
  end.

(** The loop of lines 165-166. *)
Fixpoint set_v22rate (rate_key : string) (max_rate : pyval)
    (fs : list Feature) : result (list Feature) :=
  match fs with
  | [] => Ok []
  | f :: fs' =>
      v ← getitem (properties f) rate_key;
      r ← truediv v max_rate;
      rest ← set_v22rate rate_key max_rate fs';
      Ok ({| geometry := geometry f;
             properties := <["V22RATE" := r]> (properties f) |} :: rest)
  end.

(** Lines 157-167, once [rate_key] is known. *)
Definition annotate (rate_key : string) (plan : Plan) : result Plan :=
  values ← rate_values rate_key (features (geojson plan));
  lo ← py_min values;
  hi ← py_max values;
  fs ← set_v22rate rate_key hi (features (geojson plan));
  Ok {| file_name := file_name plan;
        geojson := {| features := fs |};
        input_crs := input_crs plan;
        original_crs := original_crs plan;
        min_rate := Some lo;
        max_rate := Some hi |}.

(** [len(known_rate_keys) == 1] holds exactly when [elements] lists one
    key, and [pop] then gives that key. *)
Definition process_plan_geojson (plan : Plan) : result Plan :=
  match features (geojson plan) with
  | [] => Raise IndexError
  | first :: _ =>
      match elements (known_rate_keys (properties first)) with
      | [rate_key] => annotate rate_key plan
      | _ => Raise (HTTPException 404 "No unique rate key found.")
      end
  end.

(** ** The endpoints *)

Section Endpoints.
Context {B : Backend}.

(** [convert_plan_shape_files]: [input_crs] is left at its default. *)
Definition convert_plan_shape_files (files : list UploadFile) : result Plan :=
  plan_geojson ← shape_file_conversion files "EPSG:4326";
  process_plan_geojson plan_geojson.

(** [ProjectFile(plan=p)]: no boundaries, the settings of the default
    factory. *)
Definition project_of_plan (p : FeatureCollection) : ProjectFile :=
  {| boundaries := None; plan := Some p; settings := default_settings |}.

(** Line 209, the [FeatureCollection] built from the [geojson] dictionary.
    pydantic checks every feature of the dictionary against the [Feature]
    and [Geometry] models and keeps what it accepts as it is.  What it
    refuses, a feature whose geometry is null or of another kind than the
    six, does not show in the features of this development, whose
    geometries are of one of the six kinds: whether the dictionary held
    such a feature is the parameter [geometries_valid]. *)
Variable geometries_valid : FeatureCollection -> bool.

Definition validate_feature_collection (fc : FeatureCollection)
  : result FeatureCollection :=
  if geometries_valid fc then Ok fc else Raise ValidationError.

(** [convert_plan_shape_to_project] *)
Definition convert_plan_shape_to_project (files : list UploadFile)
  : result ProjectFile :=
  plan_geojson ← shape_file_conversion files "EPSG:4326";
  processed_plan ← process_plan_geojson plan_geojson;
  plan_feature_collection ←
    validate_feature_collection (geojson processed_plan);
  complete_project_file (project_of_plan plan_feature_collection).

End Endpoints.

(** ** A small backend to run the functions on

    Its CRS objects are their descriptors, compared as strings; it
    reprojects nothing; every archive lists [entries]; every read gives a
    frame with CRS [detected] and rows [found]; the union of a non-empty
    list is a polygon with the coordinates of its first geometry. *)
Definition sample_backend (entries : list string) (detected : option string)
    (found : list Feature) : Backend :=
  {| CRS := string;
     crs_from_user_input := Ok;
     crs_eq := String.eqb;
     crs_srs := fun c => c;
     transform := fun _ _ g => g;
     Disk := list (string * list Byte.byte);
     dir_name := "/tmp/tmpq3";
     fresh_dir := [];
     write := fun d path bytes => Ok ((path, bytes) :: d);
     zip_filelist := fun _ _ => Ok entries;
     read_file := fun _ _ => Ok {| crs := detected; rows := found |};
     unary_union := fun gs =>
       match gs with
       | [] => Raise (OtherError "AttributeError")
       | g :: _ => Ok (JGeometry "Polygon" (coordinates g))
       end |}.

Definition square : Geometry :=
  {| type := Polygon;
     coordinates := Rings [[[0; 0]; [1; 0]; [1; 1]; [0; 1]; [0; 0]]]%Q |}.

Definition rated (key : string) (v : pyval) : Feature :=
  {| geometry := square; properties := {[ key := v ]} |}.

Definition plan_of (fs : list Feature) : Plan :=
  {| file_name := "plan";
     geojson := {| features := fs |};
     input_crs := "EPSG:4326";
     original_crs := None;
     min_rate := None;
     max_rate := None |}.

Definition upload (name : string) : UploadFile :=
  {| filename := name; file := [] |}.

(** Inputs the statements are run on. *)
Definition utm32 : string :=
  "+proj=utm +zone=32 +datum=WGS84 +units=m +no_defs +type=crs".

Definition three_rates : Plan :=
  plan_of [rated "rate" (VNum 10); rated "rate" (VNum 20);
           rated "rate" (VNum 30)].

Definition two_spellings : Plan :=
  plan_of [ {| geometry := square;
               properties := {[ "RATE" := VNum 10; "rate" := VNum 10 ]} |} ].

Definition no_positive_rate : Plan :=
  plan_of [rated "rate" (VNum 0); rated "rate" (VNum (-3))].


Definition gap_in_rates : Plan :=
  plan_of [rated "rate" (VNum 10);
           {| geometry := square; properties := {[ "name" := VStr "north" ]} |}].

Definition only_plan (fs : list Feature) : ProjectFile :=
  {| boundaries := None;
     plan := Some {| features := fs |};
     settings := default_settings |}.

(** The backend [b] with another union. *)
Definition with_union (b : Backend)
    (union : list Geometry -> result JsonGeometry) : Backend :=
  {| CRS := @CRS b;
     crs_from_user_input := @crs_from_user_input b;
     crs_eq := @crs_eq b;
     crs_srs := @crs_srs b;
     transform := @transform b;
     Disk := @Disk b;
     dir_name := @dir_name b;
     fresh_dir := @fresh_dir b;
     write := @write b;
     zip_filelist := @zip_filelist b;
     read_file := @read_file b;
     unary_union := union |}.

(** A backend that reads two rated squares without CRS from any file. *)
Definition field_backend : Backend :=
  sample_backend ["field.shp"; "field.dbf"] None
    [rated "rate" (VNum 10); rated "rate" (VNum 40)].

Definition field_upload : list UploadFile :=
  [upload "Field.ZIP"; upload "notes.txt"].

Definition field_plan : Plan :=
  {| file_name := "Field";
     geojson :=
       {| features := [rated "rate" (VNum 10); rated "rate" (VNum 40)] |};
     input_crs := "EPSG:4326";
     original_crs := None;
     min_rate := None;
     max_rate := None |}.

(** ** Vocabulary of the statements *)

(** The value a feature holds under the rate key. *)
Definition rate_of (k : string) (f : Feature) : pyval :=
  default VNone (properties f !! k).

(** A feature holds a number under the key. *)
Definition numeric_at (k : string) (f : Feature) : Prop :=
  exists v, properties f !! k = Some v /\ is_Some (as_number v).

(** The rate values that are strictly positive, in the order of the
    features. *)
Definition positive_rates (k : string) (fs : list Feature) : list pyval :=
  List.filter (fun v => Qlt_bool 0 (num v)) (rate_of k <$> fs).

Definition is_minimum (m : pyval) (l : list pyval) : Prop :=
  m ∈ l /\ forall v, v ∈ l -> (num m <= num v)%Q.

Definition is_maximum (m : pyval) (l : list pyval) : Prop :=
  m ∈ l /\ forall v, v ∈ l -> (num v <= num m)%Q.

(** The feature with [V22RATE] set to its rate divided by [hi]. *)
Definition with_v22rate (k : string) (hi : pyval) (f : Feature) : Feature :=
  {| geometry := geometry f;
     properties :=
       <["V22RATE" := VNum (num (rate_of k f) / num hi)%Q]> (properties f) |}.

(** The [V22RATE] of a feature, when it is a number. *)
Definition v22rate (f : Feature) : option Q :=
  match properties f !! "V22RATE" with
  | Some (VNum q) => Some q
  | _ => None
  end.

(** The plan [annotate] returns when it returns. *)
Definition annotated (k : string) (lo hi : pyval) (plan : Plan) : Plan :=
  {| file_name := file_name plan;
     geojson :=
       {| features := with_v22rate k hi <$> features (geojson plan) |};
     input_crs := input_crs plan;
     original_crs := original_crs plan;
     min_rate := Some lo;
     max_rate := Some hi |}.

(** Results the further statements are run on. *)
Definition three_rates_done : Plan :=
  annotated "rate" (VNum 10) (VNum 30) three_rates.

Definition one_square_project : ProjectFile :=
  {| boundaries :=
       Some {| features := [ {| geometry := square; properties := ∅ |} ] |};
     plan := Some {| features := [rated "rate" (VNum 10)] |};
     settings := default_settings |}.

Definition field_plan_done : Plan :=
  annotated "rate" (VNum 10) (VNum 40) field_plan.

(** * Properties *)

(** ** Strings *)

Module StrFacts.
Import Str.

Lemma app_cons (c : ascii) (x y : string) :
  String c x +:+ y = String c (x +:+ y).
Proof. reflexivity. Qed.

Lemma app_empty_l (y : string) : EmptyString +:+ y = y.
Proof. reflexivity. Qed.

Lemma length_app (x y : string) :
  String.length (x +:+ y) = (String.length x + String.length y)%nat.
Proof.
  induction x as [|c x IH]; [done |].
  rewrite app_cons. simpl. by rewrite IH.
Qed.

Lemma app_empty_r (x : string) : x +:+ EmptyString = x.
Proof. induction x as [|c x IH]; [done |]. by rewrite app_cons, IH. Qed.

Lemma app_assoc (x y z : string) : (x +:+ y) +:+ z = x +:+ (y +:+ z).
Proof. induction x as [|c x IH]; [done |]. by rewrite !app_cons, IH. Qed.

Lemma substring_all (s : string) : substring 0 (String.length s) s = s.
Proof. induction s as [|c s IH]; simpl; [done | by rewrite IH]. Qed.

Lemma substring_skip (x p : string) :
  substring (String.length x) (String.length p) (x +:+ p) = p.
Proof.
  induction x as [|c x IH]; [apply substring_all |].
  rewrite app_cons. simpl. exact IH.
Qed.

(** A string is what lies before an index followed by what lies after. *)
Lemma split_at (n : nat) (s : string) :
  (n <= String.length s)%nat ->
  s = substring 0 n s +:+ substring n (String.length s - n) s.
Proof.
  revert n. induction s as [|c s IH]; intros [|n] Hn; simpl in *.
  - done.
  - lia.
  - by rewrite substring_all.
  - rewrite app_cons. f_equal. apply IH. lia.
Qed.

Lemma startswith_spec (s p : string) :
  startswith s p = true <-> exists r, s = p +:+ r.
Proof.
  revert s. induction p as [|a p IH]; intros s.
  - split; [intros _; by exists s | by destruct s].
  - destruct s as [|b s]; simpl.
    + split; [done | intros [r Hr]; discriminate].
    + rewrite andb_true_iff, Ascii.eqb_eq, IH. split.
      * intros [-> [r ->]]. by exists r.
      * intros [r Hr]. rewrite app_cons in Hr. injection Hr as -> ->. eauto.
Qed.

Lemma endswith_spec (s p : string) :
  endswith s p = true <-> exists x, s = x +:+ p.
Proof.
  unfold endswith. rewrite andb_true_iff, Nat.leb_le, String.eqb_eq. split.
  - intros [Hle Hsub].
    exists (substring 0 (String.length s - String.length p) s).
    pose proof (split_at (String.length s - String.length p) s) as E.
    replace (String.length s - (String.length s - String.length p))%nat
      with (String.length p) in E by lia.
    rewrite Hsub in E. apply E. lia.
  - intros [x ->]. rewrite length_app. split; [lia |].
    replace (String.length x + String.length p - String.length p)%nat
      with (String.length x) by lia.
    apply substring_skip.
Qed.

Lemma startswith_app (p r : string) : startswith (p +:+ r) p = true.
Proof. apply startswith_spec. by exists r. Qed.

End StrFacts.

(** ** The CRS identifier *)

Module EpsgFacts.
Import Str Epsg StrFacts.

Lemma literal_spec (p s r : string) :
  literal p s = Some r <-> s = p +:+ r.
Proof.
  revert s. induction p as [|a p IH]; intros s.
  - rewrite app_empty_l. destruct s; simpl; split; congruence.
  - rewrite app_cons. destruct s as [|b s]; simpl; [split; discriminate |].
    destruct (Ascii.eqb_spec a b) as [->|Hne].
    + rewrite IH. split; congruence.
    + split; congruence.
Qed.

Lemma digits_spec (n : nat) (s r : string) :
  digits n s = Some r <->
  exists d, s = d +:+ r /\ String.length d = n /\ all_digits d = true.
Proof.
  revert s. induction n as [|n IH]; intros s; simpl.
  - split.
    + intros [= ->]. by exists EmptyString.
    + intros ([|c d] & -> & Hlen & _); [done | discriminate].
  - destruct s as [|c s].
    + split; [discriminate |].
      intros ([|c d] & Hs & Hlen & _); [discriminate |].
      rewrite app_cons in Hs. discriminate.
    + destruct (is_digit c) eqn:Hc.
      * rewrite IH. split.
        -- intros (d & -> & <- & Hd). exists (String c d).
           simpl. by rewrite Hc.
        -- intros ([|c' d] & Hs & Hlen & Hd); [discriminate |].
           rewrite app_cons in Hs. injection Hs as -> ->.
           simpl in Hd, Hlen. apply andb_true_iff in Hd as [_ Hd].
           exists d. split_and!; [done | lia | done].
      * split; [discriminate |].
        intros ([|c' d] & Hs & Hlen & Hd); [discriminate |].
        rewrite app_cons in Hs. injection Hs as -> ->.
        simpl in Hd. rewrite Hc in Hd. discriminate.
Qed.

Lemma at_end_spec (s : string) :
  at_end s = true <-> s = EmptyString \/ s = LF.
Proof.
  unfold at_end. by rewrite orb_true_iff, !String.eqb_eq.
Qed.

Lemma ends_after_spec (n : nat) (s : string) :
  ends_after (digits n s) = true <->
  exists d t, s = d +:+ t /\ String.length d = n /\ all_digits d = true
              /\ (t = EmptyString \/ t = LF).
Proof.
  unfold ends_after. destruct (digits n s) as [r|] eqn:E.
  - apply digits_spec in E as (d & -> & Hlen & Hd).
    rewrite at_end_spec. split.
    + intros Hr. by exists d, r.
    + intros (d' & t & Heq & Hlen' & Hd' & Ht).
      assert (digits n (d' +:+ t) = Some t) as E'
        by (apply digits_spec; eauto).
      assert (digits n (d +:+ r) = Some r) as E''
        by (apply digits_spec; eauto).
      rewrite Heq in E''. congruence.
  - split; [discriminate |].
    intros (d & t & -> & Hlen & Hd & _).
    assert (digits n (d +:+ t) = Some t) as E' by (apply digits_spec; eauto).
    congruence.
Qed.

(** What the compiled pattern accepts: the authority in one of its two
    spellings, a colon, four or five decimal digits, and then the end of
    the descriptor or one final line feed. *)
Lemma matches_spec (s : string) :
  matches s = true <->
  exists a d t,
    s = a +:+ ":" +:+ d +:+ t
    /\ (a = "EPSG" \/ a = "epsg")
    /\ all_digits d = true
    /\ (String.length d = 4 \/ String.length d = 5)%nat
    /\ (t = EmptyString \/ t = LF).
Proof.
  unfold matches, authority. split.
  - destruct (literal "EPSG" s) as [s1|] eqn:E1.
    + apply literal_spec in E1 as ->.
      destruct (literal ":" s1) as [s2|] eqn:E2; [|discriminate].
      apply literal_spec in E2 as ->.
      rewrite orb_true_iff, !ends_after_spec.
      intros [(d & t & -> & ? & ? & ?)|(d & t & -> & ? & ? & ?)];
        exists "EPSG", d, t; split_and!; auto.
    + destruct (literal "epsg" s) as [s1|] eqn:E1'; [|discriminate].
      apply literal_spec in E1' as ->.
      destruct (literal ":" s1) as [s2|] eqn:E2; [|discriminate].
      apply literal_spec in E2 as ->.
      rewrite orb_true_iff, !ends_after_spec.
      intros [(d & t & -> & ? & ? & ?)|(d & t & -> & ? & ? & ?)];
        exists "epsg", d, t; split_and!; auto.
  - intros (a & d & t & -> & Ha & Hd & Hlen & Ht).
    assert (ends_after (digits 5 (d +:+ t)) || ends_after (digits 4 (d +:+ t))
            = true) as Hend.
    { rewrite orb_true_iff, !ends_after_spec.
      destruct Hlen; [right | left]; exists d, t; auto. }
    destruct Ha as [-> | ->]; exact Hend.
Qed.

End EpsgFacts.

(** ** [shape_file_conversion] *)

Section Conversion.
Context {B : Backend}.
Import StrFacts.

(** With one candidate written to the temporary directory, the function
    is the reading, the CRS resolution and the reprojection in a row. *)
Lemma shape_file_conversion_sole files input file_name d :
  filename <$> List.filter is_candidate files = [file_name] ->
  write_files fresh_dir files = Ok d ->
  shape_file_conversion files input =
    (g ← read_candidate d file_name;
     '(original, g') ← resolve_crs g input;
     out ← to_crs g' "EPSG:4326";
     Ok {| file_name := (Str.splitext file_name).1;
           geojson := to_json out;
           input_crs := input;
           original_crs := original;
           min_rate := None;
           max_rate := None |}).
Proof.
  intros Hc Hw. unfold shape_file_conversion. cbv zeta.
  rewrite Hc, Hw. reflexivity.
Qed.

Lemma is_shp_entry_spec (name : string) :
  is_shp_entry name = true <->
  (exists stem, Str.lower name = stem +:+ ".shp")
  /\ ~ (exists rest, name = "__MACOSX/" +:+ rest)
  /\ ~ (exists rest, name = "Rx/" +:+ rest).
Proof.
  unfold is_shp_entry.
  rewrite !andb_true_iff, !negb_true_iff, endswith_spec.
  rewrite <- !not_true_iff_false, !startswith_spec. tauto.
Qed.

Lemma elem_of_shp_in_zip (names : list string) (name : string) :
  name ∈ shp_in_zip names <-> name ∈ names /\ is_shp_entry name = true.
Proof.
  unfold shp_in_zip. rewrite !list_elem_of_In, filter_In. tauto.
Qed.

Lemma shp_in_zip_app (l1 l2 : list string) :
  shp_in_zip (l1 ++ l2)%list = (shp_in_zip l1 ++ shp_in_zip l2)%list.
Proof. apply List.filter_app. Qed.

Lemma reserved_not_shp_entry (rest : string) :
  is_shp_entry ("__MACOSX/" +:+ rest) = false
  /\ is_shp_entry ("Rx/" +:+ rest) = false.
Proof.
  unfold is_shp_entry. rewrite !startswith_app. simpl.
  by rewrite !andb_false_r.
Qed.

(** The CRS the reprojection starts from, in the three cases. *)
Lemma resolve_crs_absent g input c' :
  crs g = None ->
  crs_from_user_input input = Ok c' ->
  resolve_crs g input = Ok (None, {| crs := Some c'; rows := rows g |}).
Proof.
  intros Hg Hc. unfold resolve_crs, set_crs. rewrite Hg, Hc. reflexivity.
Qed.

Lemma resolve_crs_recognised g input c :
  crs g = Some c ->
  Epsg.matches (crs_srs c) = true ->
  resolve_crs g input = Ok (Some (crs_srs c), g).
Proof. intros Hg Hm. unfold resolve_crs. by rewrite Hg, Hm. Qed.

Lemma resolve_crs_unrecognised g input c c' :
  crs g = Some c ->
  Epsg.matches (crs_srs c) = false ->
  crs_from_user_input input = Ok c' ->
  resolve_crs g input =
    if crs_eq c c'
    then Ok (Some (crs_srs c), {| crs := Some c'; rows := rows g |})
    else Raise ValueError.
Proof.
  intros Hg Hm Hc. unfold resolve_crs, set_crs. rewrite Hg, Hm, Hc. simpl.
  by destruct (crs_eq c c').
Qed.

(** Whatever [resolve_crs] returns carries a CRS, and [to_crs] reprojects
    every row from that CRS. *)
Lemma resolve_crs_tagged g input original g' :
  resolve_crs g input = Ok (original, g') ->
  rows g' = rows g /\
  exists eff, crs g' = Some eff /\
    match crs g with
    | None => crs_from_user_input input = Ok eff
    | Some c =>
        if Epsg.matches (crs_srs c) then eff = c
        else crs_from_user_input input = Ok eff /\ crs_eq c eff = true
    end.
Proof.
  unfold resolve_crs, set_crs. destruct (crs g) as [c|] eqn:Hg.
  - destruct (Epsg.matches (crs_srs c)) eqn:Hm.
    + intros [= <- <-]. rewrite Hg. eauto.
    + destruct (crs_from_user_input input) as [c'|e] eqn:Hc; simpl;
        [|discriminate].
      destruct (crs_eq c c') eqn:He; simpl; [|discriminate].
      intros [= <- <-]. simpl. eauto.
  - destruct (crs_from_user_input input) as [c'|e] eqn:Hc; simpl;
      [|discriminate].
    intros [= <- <-]. simpl. eauto.
Qed.

(** C1, the failing path: a frame comes with a CRS whose descriptor is not
    of the EPSG form, and that CRS is not equal to the caller's default.
    The code asks [set_crs] for the default without allowing an override,
    so the call is refused with [ValueError]: nothing is overridden and
    nothing is reprojected. *)
Theorem shape_file_conversion_override_refused
    files input file_name d g c c' :
  filename <$> List.filter is_candidate files = [file_name] ->
  write_files fresh_dir files = Ok d ->
  read_candidate d file_name = Ok g ->
  crs g = Some c ->
  Epsg.matches (crs_srs c) = false ->
  crs_from_user_input input = Ok c' ->
  crs_eq c c' = false ->
  shape_file_conversion files input = Raise ValueError.
Proof.
  intros Hc Hw Hr Hg Hm Hu He.
  rewrite (shape_file_conversion_sole _ _ _ _ Hc Hw), Hr. simpl.
  rewrite (resolve_crs_unrecognised _ _ _ _ Hg Hm Hu), He. reflexivity.
Qed.

(** The three cases in which the code does resolve a CRS, and the
    reprojection that follows. *)
Lemma shape_file_conversion_resolved files input file_name d g wgs84 plan :
  filename <$> List.filter is_candidate files = [file_name] ->
  write_files fresh_dir files = Ok d ->
  read_candidate d file_name = Ok g ->
  crs_from_user_input "EPSG:4326" = Ok wgs84 ->
  shape_file_conversion files input = Ok plan ->
  exists eff,
    features (geojson plan) = reproject eff wgs84 <$> rows g
    /\ original_crs plan = crs_srs <$> crs g
    /\ match crs g with
       | None => crs_from_user_input input = Ok eff
       | Some c =>
           if Epsg.matches (crs_srs c) then eff = c
           else crs_from_user_input input = Ok eff /\ crs_eq c eff = true
       end.
Proof.
  intros Hc Hw Hr Hwgs.
  rewrite (shape_file_conversion_sole _ _ _ _ Hc Hw), Hr. simpl.
  destruct (resolve_crs g input) as [[original g']|e] eqn:Hres; simpl;
    [|discriminate].
  pose proof (resolve_crs_tagged _ _ _ _ Hres) as (Hrows & eff & Heff & Hcase).
  unfold to_crs. rewrite Heff, Hwgs. simpl. intros [= <-]. simpl.
  exists eff. rewrite Hrows. split_and!; [done | | done].
  unfold resolve_crs in Hres. destruct (crs g) as [c|]; simpl.
  - destruct (Epsg.matches (crs_srs c)).
    + by injection Hres as <- _.
    + destruct (set_crs g input); simpl in Hres; [|discriminate].
      by injection Hres as <- _.
  - destruct (set_crs g input); simpl in Hres; [|discriminate].
    by injection Hres as <- _.
Qed.

(** C4. The sole candidate is a zip archive with entries [names].
    The entries considered are those whose lower-cased name ends in
    [.shp] and whose name starts with neither [__MACOSX/] nor [Rx/];
    entries under a reserved directory do not count; more than one
    considered entry is the error [AmbiguousArchiveContent]; exactly one
    is the entry read, under the path of the archive, [!] and its name. *)
Theorem zip_entry_selection files input file_name d names :
  filename <$> List.filter is_candidate files = [file_name] ->
  Str.endswith (Str.lower file_name) ".zip" = true ->
  write_files fresh_dir files = Ok d ->
  zip_filelist d (Str.join dir_name file_name) = Ok names ->
  (forall name,
     name ∈ shp_in_zip names <->
     name ∈ names
     /\ (exists stem, Str.lower name = stem +:+ ".shp")
     /\ ~ (exists rest, name = "__MACOSX/" +:+ rest)
     /\ ~ (exists rest, name = "Rx/" +:+ rest))
  /\ (forall before after rest,
        names = (before ++ ("__MACOSX/" +:+ rest) :: after)%list ->
        shp_in_zip names = shp_in_zip (before ++ after)%list)
  /\ ((1 < length (shp_in_zip names))%nat ->
      shape_file_conversion files input = Raise AmbiguousArchiveContent)
  /\ (forall entry,
        shp_in_zip names = [entry] ->
        read_candidate d file_name =
          read_file d (Str.join dir_name file_name +:+ "!" +:+ entry)
        /\ shape_file_conversion files input =
             (g ← read_file d
                    (Str.join dir_name file_name +:+ "!" +:+ entry);
              '(original, g') ← resolve_crs g input;
              out ← to_crs g' "EPSG:4326";
              Ok {| file_name := (Str.splitext file_name).1;
                    geojson := to_json out;
                    input_crs := input;
                    original_crs := original;
                    min_rate := None;
                    max_rate := None |})).
Proof.
  intros Hc Hzip Hw Hl. split_and!.
  - intros name. rewrite elem_of_shp_in_zip, is_shp_entry_spec. tauto.
  - intros before after rest ->. rewrite !shp_in_zip_app. f_equal.
    unfold shp_in_zip at 1. simpl.
    by rewrite (proj1 (reserved_not_shp_entry rest)).
  - intros Hmany. rewrite (shape_file_conversion_sole _ _ _ _ Hc Hw).
    unfold read_candidate. cbv zeta. rewrite Hzip, Hl. simpl.
    apply Nat.ltb_lt in Hmany. by rewrite Hmany.
  - intros entry He.
    assert (read_candidate d file_name =
            read_file d (Str.join dir_name file_name +:+ "!" +:+ entry))
      as Hread.
    { unfold read_candidate. cbv zeta. rewrite Hzip, Hl. simpl.
      by rewrite He. }
    split; [done |].
    by rewrite (shape_file_conversion_sole _ _ _ _ Hc Hw), Hread.
Qed.

(** C5, the failing path: the sole candidate is a zip archive none of
    whose entries is considered.  The code indexes the empty selection
    and [IndexError] escapes; it is not an error the code raises on
    purpose. *)
Theorem empty_archive_index_error files input file_name d names :
  filename <$> List.filter is_candidate files = [file_name] ->
  Str.endswith (Str.lower file_name) ".zip" = true ->
  write_files fresh_dir files = Ok d ->
  zip_filelist d (Str.join dir_name file_name) = Ok names ->
  shp_in_zip names = [] ->
  shape_file_conversion files input = Raise IndexError
  /\ is_explicit IndexError = false.
Proof.
  intros Hc Hzip Hw Hl He. split; [|done].
  rewrite (shape_file_conversion_sole _ _ _ _ Hc Hw).
  unfold read_candidate. cbv zeta. rewrite Hzip, Hl. simpl.
  by rewrite He.
Qed.

End Conversion.

(** ** Numbers *)

Module NumFacts.

Lemma Qlt_bool_iff (x y : Q) : Qlt_bool x y = true <-> (x < y)%Q.
Proof.
  unfold Qlt_bool. rewrite negb_true_iff. split.
  - intros Hle. destruct (Qlt_le_dec x y) as [|Hyx]; [done |].
    apply Qle_bool_iff in Hyx. congruence.
  - intros Hlt. destruct (Qle_bool y x) eqn:E; [|done].
    apply Qle_bool_iff in E. by apply Qlt_not_le in Hlt.
Qed.

Lemma Qlt_bool_false (x y : Q) : Qlt_bool x y = false <-> (y <= x)%Q.
Proof.
  unfold Qlt_bool. rewrite negb_false_iff. apply Qle_bool_iff.
Qed.

Lemma num_as_number (v : pyval) (q : Q) : as_number v = Some q -> num v = q.
Proof. unfold num. by intros ->. Qed.

Lemma min_from_spec (l : list pyval) (best : pyval) :
  is_minimum (min_from best l) (best :: l).
Proof.
  unfold is_minimum. revert best.
  induction l as [|v l IH]; intros best; simpl.
  - split; [apply list_elem_of_here |]. intros w Hw.
    apply list_elem_of_singleton in Hw as ->. apply Qle_refl.
  - destruct (IH (if Qlt_bool (num v) (num best) then v else best))
      as [Hin Hle].
    destruct (Qlt_bool (num v) (num best)) eqn:E.
    + apply Qlt_bool_iff in E. split.
      * apply list_elem_of_further, Hin.
      * intros w Hw. apply elem_of_cons in Hw as [->|Hw].
        -- apply Qle_trans with (num v);
             [apply Hle, list_elem_of_here | by apply Qlt_le_weak].
        -- apply Hle, Hw.
    + apply Qlt_bool_false in E. split.
      * apply elem_of_cons in Hin as [->|Hin];
          [apply list_elem_of_here | by do 2 apply list_elem_of_further].
      * intros w Hw. apply elem_of_cons in Hw as [->|Hw];
          [apply Hle, list_elem_of_here |].
        apply elem_of_cons in Hw as [->|Hw];
          [|by apply Hle, list_elem_of_further].
        apply Qle_trans with (num best);
          [apply Hle, list_elem_of_here | done].
Qed.

Lemma max_from_spec (l : list pyval) (best : pyval) :
  is_maximum (max_from best l) (best :: l).
Proof.
  unfold is_maximum. revert best.
  induction l as [|v l IH]; intros best; simpl.
  - split; [apply list_elem_of_here |]. intros w Hw.
    apply list_elem_of_singleton in Hw as ->. apply Qle_refl.
  - destruct (IH (if Qlt_bool (num best) (num v) then v else best))
      as [Hin Hle].
    destruct (Qlt_bool (num best) (num v)) eqn:E.
    + apply Qlt_bool_iff in E. split.
      * apply list_elem_of_further, Hin.
      * intros w Hw. apply elem_of_cons in Hw as [->|Hw].
        -- apply Qle_trans with (num v);
             [by apply Qlt_le_weak | apply Hle, list_elem_of_here].
        -- apply Hle, Hw.
    + apply Qlt_bool_false in E. split.
      * apply elem_of_cons in Hin as [->|Hin];
          [apply list_elem_of_here | by do 2 apply list_elem_of_further].
      * intros w Hw. apply elem_of_cons in Hw as [->|Hw];
          [apply Hle, list_elem_of_here |].
        apply elem_of_cons in Hw as [->|Hw];
          [|by apply Hle, list_elem_of_further].
        apply Qle_trans with (num best);
          [done | apply Hle, list_elem_of_here].
Qed.

Lemma py_min_ok (l : list pyval) :
  l <> [] -> exists m, py_min l = Ok m /\ is_minimum m l.
Proof.
  destruct l as [|v l]; [done |]. intros _.
  exists (min_from v l). split; [done | apply min_from_spec].
Qed.

Lemma py_max_ok (l : list pyval) :
  l <> [] -> exists m, py_max l = Ok m /\ is_maximum m l.
Proof.
  destruct l as [|v l]; [done |]. intros _.
  exists (max_from v l). split; [done | apply max_from_spec].
Qed.

Lemma py_min_inv (l : list pyval) (m : pyval) :
  py_min l = Ok m -> is_minimum m l.
Proof.
  destruct l as [|v l]; [discriminate |].
  intros [= <-]. apply min_from_spec.
Qed.

Lemma py_max_inv (l : list pyval) (m : pyval) :
  py_max l = Ok m -> is_maximum m l.
Proof.
  destruct l as [|v l]; [discriminate |].
  intros [= <-]. apply max_from_spec.
Qed.



End NumFacts.

(** ** [process_plan_geojson] *)

Module RateFacts.
Import NumFacts.

Lemma positive_is_number (v : pyval) :
  (0 < num v)%Q -> exists q, as_number v = Some q /\ (0 < q)%Q.
Proof.
  unfold num. destruct (as_number v) as [q|]; simpl; [eauto |].
  intros H. by apply Qlt_irrefl in H.
Qed.

Lemma rate_of_lookup (k : string) (f : Feature) (v : pyval) :
  properties f !! k = Some v -> rate_of k f = v.
Proof. unfold rate_of. by intros ->. Qed.

Lemma positive_rates_cons (k : string) (f : Feature) (fs : list Feature) :
  positive_rates k (f :: fs) =
    if Qlt_bool 0 (num (rate_of k f))
    then rate_of k f :: positive_rates k fs
    else positive_rates k fs.
Proof. reflexivity. Qed.

Lemma elem_of_positive_rates (k : string) (fs : list Feature) (v : pyval) :
  v ∈ positive_rates k fs <->
  (exists f, f ∈ fs /\ v = rate_of k f) /\ (0 < num v)%Q.
Proof.
  unfold positive_rates.
  rewrite list_elem_of_In, filter_In, <- list_elem_of_In.
  rewrite list_elem_of_fmap, Qlt_bool_iff.
  split; intros [(f & ? & ?) ?]; eauto.
Qed.

(** The comprehension succeeds exactly when every feature holds a number
    under the key, and then it is the list of the positive ones. *)
Lemma rate_values_spec (k : string) (fs : list Feature) (values : list pyval) :
  rate_values k fs = Ok values <->
  Forall (numeric_at k) fs /\ values = positive_rates k fs.
Proof.
  revert values. induction fs as [|f fs IH]; intros values; simpl.
  - split; [intros [= <-]; by split | intros [_ ->]; done].
  - rewrite positive_rates_cons, Forall_cons. unfold getitem, numeric_at.
    destruct (properties f !! k) as [v|] eqn:Hv; simpl.
    + rewrite (rate_of_lookup _ _ _ Hv). unfold gt0, num.
      destruct (as_number v) as [q|] eqn:Hq; simpl.
      * destruct (rate_values k fs) as [rest|e]; simpl.
        -- destruct (IH rest) as [IH1 _].
           destruct (IH1 eq_refl) as [Hall ->]. split.
           ++ intros [= <-]. split; [|done]. split; [|done].
              exists v. by rewrite Hq.
           ++ by intros [_ ->].
        -- split; [discriminate |]. intros [[_ Hall] _].
           destruct (IH (positive_rates k fs)) as [_ IH2].
           by specialize (IH2 (conj Hall eq_refl)).
      * split; [discriminate |].
        intros [[(v' & [= <-] & [q Hq']) _] _]. congruence.
    + split; [discriminate |]. intros [[(v' & ? & _) _] _]. discriminate.
Qed.

Lemma rate_values_raise (k : string) (fs : list Feature) (e : exn) :
  rate_values k fs = Raise e -> e = KeyError k \/ e = TypeError.
Proof.
  induction fs as [|f fs IH]; simpl; [discriminate |].
  unfold getitem. destruct (properties f !! k) as [v|]; simpl;
    [|intros [= <-]; by left].
  unfold gt0. destruct (as_number v); simpl; [|intros [= <-]; by right].
  destruct (rate_values k fs); simpl; [discriminate |].
  intros [= <-]. by apply IH.
Qed.

(** A feature without the key stops the comprehension. *)
Lemma rate_values_missing (k : string) (fs : list Feature) :
  Exists (fun f => properties f !! k = None) fs ->
  exists e, rate_values k fs = Raise e /\ (e = KeyError k \/ e = TypeError).
Proof.
  intros Hex. destruct (rate_values k fs) as [values|e] eqn:E.
  - apply rate_values_spec in E as [Hall _].
    apply Exists_exists in Hex as (f & Hf & Hnone).
    rewrite Forall_forall in Hall.
    destruct (Hall f Hf) as (v & Hv & _). congruence.
  - exists e. split; [done |]. by apply rate_values_raise in E.
Qed.

Lemma rate_values_key_error (k : string) (fs : list Feature) :
  Exists (fun f => properties f !! k = None) fs ->
  Forall (fun f => forall v, properties f !! k = Some v ->
                             is_Some (as_number v)) fs ->
  rate_values k fs = Raise (KeyError k).
Proof.
  induction fs as [|f fs IH]; intros Hex Hall.
  - by apply Exists_nil in Hex.
  - apply Forall_cons in Hall as [Hf Hall]. simpl. unfold getitem.
    destruct (properties f !! k) as [v|] eqn:Hv; simpl; [|done].
    destruct (Hf v eq_refl) as [q Hq]. unfold gt0. rewrite Hq. simpl.
    apply Exists_cons in Hex as [Hnone|Hex]; [congruence |].
    by rewrite (IH Hex Hall).
Qed.

Lemma truediv_ok (v hi : pyval) :
  is_Some (as_number v) -> (0 < num hi)%Q ->
  truediv v hi = Ok (VNum (num v / num hi)%Q).
Proof.
  intros [x Hx] Hhi.
  destruct (positive_is_number _ Hhi) as (y & Hy & Hpos).
  unfold truediv, num. rewrite Hx, Hy. simpl.
  destruct (Qeq_bool y 0) eqn:E; [|done].
  apply Qeq_bool_iff in E. rewrite E in Hpos. by apply Qlt_irrefl in Hpos.
Qed.

Lemma set_v22rate_ok (k : string) (hi : pyval) (fs : list Feature) :
  Forall (numeric_at k) fs -> (0 < num hi)%Q ->
  set_v22rate k hi fs = Ok (with_v22rate k hi <$> fs).
Proof.
  intros Hall Hhi. induction Hall as [|f fs (v & Hv & Hnum) _ IH]; [done |].
  simpl. unfold getitem. rewrite Hv. simpl.
  rewrite (truediv_ok _ _ Hnum Hhi). simpl. rewrite IH. simpl.
  unfold with_v22rate. by rewrite (rate_of_lookup _ _ _ Hv).
Qed.

Lemma truediv_raise (v hi : pyval) (e : exn) :
  truediv v hi = Raise e -> is_explicit e = false.
Proof.
  unfold truediv. destruct (as_number v), (as_number hi);
    try (intros [= <-]; done).
  destruct (Qeq_bool _ _); [intros [= <-]; done | discriminate].
Qed.

Lemma set_v22rate_raise (k : string) (hi : pyval) (fs : list Feature) e :
  set_v22rate k hi fs = Raise e -> is_explicit e = false.
Proof.
  induction fs as [|f fs IH]; simpl; [discriminate |].
  unfold getitem. destruct (properties f !! k) as [v|]; simpl;
    [|intros [= <-]; done].
  destruct (truediv v hi) as [r|e'] eqn:E; simpl;
    [|intros [= <-]; by apply truediv_raise in E].
  destruct (set_v22rate k hi fs); simpl; [discriminate |].
  intros [= <-]. by apply IH.
Qed.

(** The loop reads the key from every feature as well. *)
Lemma set_v22rate_missing (k : string) (hi : pyval) (fs : list Feature) :
  Exists (fun f => properties f !! k = None) fs ->
  exists e, set_v22rate k hi fs = Raise e.
Proof.
  induction 1 as [f fs Hnone | f fs _ [e IH]]; simpl.
  - unfold getitem. rewrite Hnone. simpl. eauto.
  - destruct (getitem (properties f) k) as [v|e1]; simpl; [|eauto].
    destruct (truediv v hi) as [r|e2]; simpl; [|eauto].
    rewrite IH. simpl. eauto.
Qed.

Lemma maximum_positive (k : string) (fs : list Feature) (hi : pyval) :
  is_maximum hi (positive_rates k fs) -> (0 < num hi)%Q.
Proof. intros [Hin _]. by apply elem_of_positive_rates in Hin as [_ ?]. Qed.

Lemma annotate_ok (k : string) (plan : Plan) :
  Forall (numeric_at k) (features (geojson plan)) ->
  positive_rates k (features (geojson plan)) <> [] ->
  exists lo hi,
    annotate k plan = Ok (annotated k lo hi plan)
    /\ is_minimum lo (positive_rates k (features (geojson plan)))
    /\ is_maximum hi (positive_rates k (features (geojson plan))).
Proof.
  intros Hall Hpos. unfold annotate.
  rewrite (proj2 (rate_values_spec k _ _) (conj Hall eq_refl)). simpl.
  destruct (py_min_ok _ Hpos) as (lo & -> & Hlo).
  destruct (py_max_ok _ Hpos) as (hi & -> & Hhi). simpl.
  rewrite (set_v22rate_ok _ _ _ Hall (maximum_positive _ _ _ Hhi)). simpl.
  by exists lo, hi.
Qed.

Lemma annotate_inv (k : string) (plan plan' : Plan) :
  annotate k plan = Ok plan' ->
  Forall (numeric_at k) (features (geojson plan))
  /\ exists lo hi,
       plan' = annotated k lo hi plan
       /\ is_minimum lo (positive_rates k (features (geojson plan)))
       /\ is_maximum hi (positive_rates k (features (geojson plan))).
Proof.
  unfold annotate.
  destruct (rate_values k _) as [values|] eqn:Hv; simpl; [|discriminate].
  apply rate_values_spec in Hv as [Hall ->].
  destruct (py_min _) as [lo|] eqn:Hlo; simpl; [|discriminate].
  destruct (py_max _) as [hi|] eqn:Hhi; simpl; [|discriminate].
  apply py_min_inv in Hlo. apply py_max_inv in Hhi.
  rewrite (set_v22rate_ok _ _ _ Hall (maximum_positive _ _ _ Hhi)). simpl.
  intros [= <-]. split; [done |]. by exists lo, hi.
Qed.

Lemma annotate_raise (k : string) (plan : Plan) (e : exn) :
  annotate k plan = Raise e -> is_explicit e = false.
Proof.
  unfold annotate.
  destruct (rate_values k _) as [values|e1] eqn:Hv; simpl.
  - destruct (py_min values) as [lo|] eqn:Hlo; simpl.
    + destruct (py_max values) as [hi|] eqn:Hhi; simpl.
      * destruct (set_v22rate k hi _) as [fs|e2] eqn:Hs; simpl;
          [discriminate |].
        intros [= <-]. by apply set_v22rate_raise in Hs.
      * destruct values; discriminate.
    + destruct values; [|discriminate]. simpl in Hlo.
      intros [= <-]. by injection Hlo as <-.
  - intros [= <-]. by apply rate_values_raise in Hv as [-> | ->].
Qed.

Lemma elements_one (X : gset string) (k : string) :
  elements X = [k] <-> X = {[ k ]}.
Proof.
  split.
  - intros E. rewrite <- (list_to_set_elements_L X), E. simpl.
    apply union_empty_r_L.
  - intros ->. apply elements_singleton.
Qed.

Lemma process_unique (plan : Plan) first rest (k : string) :
  features (geojson plan) = first :: rest ->
  known_rate_keys (properties first) = {[ k ]} ->
  process_plan_geojson plan = annotate k plan.
Proof.
  intros Hf Hk. unfold process_plan_geojson. rewrite Hf.
  by rewrite (proj2 (elements_one _ _) Hk).
Qed.

Lemma process_key_error (plan : Plan) first rest :
  features (geojson plan) = first :: rest ->
  process_plan_geojson plan = Raise NoUniqueRateKey <->
  size (known_rate_keys (properties first)) <> 1%nat.
Proof.
  intros Hf. unfold process_plan_geojson. rewrite Hf.
  change (size (known_rate_keys (properties first)))
    with (length (elements (known_rate_keys (properties first)))).
  destruct (elements _) as [|k [|k' l]] eqn:E; simpl.
  - split; [lia | done].
  - split; [|lia]. intros Hr. by apply annotate_raise in Hr.
  - split; [lia | done].
Qed.

End RateFacts.

Section RateResolver.
Import NumFacts RateFacts.

Lemma v22rate_with (k : string) (hi : pyval) (f : Feature) :
  v22rate (with_v22rate k hi f) = Some (num (rate_of k f) / num hi)%Q.
Proof. unfold v22rate, with_v22rate. simpl. by rewrite lookup_insert_eq. Qed.

Lemma no_positive_rates (k : string) (fs : list Feature) :
  (forall f, f ∈ fs -> (num (rate_of k f) <= 0)%Q) ->
  positive_rates k fs = [].
Proof.
  intros Hle. destruct (positive_rates k fs) as [|v l] eqn:E; [done |].
  assert (v ∈ positive_rates k fs) as Hv
    by (rewrite E; apply list_elem_of_here).
  apply elem_of_positive_rates in Hv as [(f & Hf & ->) Hpos].
  apply Qlt_not_le in Hpos. destruct Hpos. by apply Hle.
Qed.

(** C2. A plan whose first feature resolves the rate key [k], whose
    features all hold a number under [k], one of them strictly positive:
    the function returns the plan with [min_rate] the minimum and
    [max_rate] the maximum of the strictly positive rate values, and with
    [V22RATE] set on every feature, positive or not, to its rate value
    divided by [max_rate].  In particular the rate values 10, 20 and 30
    under the key [rate] give [min_rate] 10, [max_rate] 30 and the
    [V22RATE] values 0.333, 0.667 and 1.0 up to 0.001. *)
Theorem process_plan_geojson_rates :
  (forall plan first rest k,
     features (geojson plan) = first :: rest ->
     known_rate_keys (properties first) = {[ k ]} ->
     Forall (numeric_at k) (features (geojson plan)) ->
     positive_rates k (features (geojson plan)) <> [] ->
     exists lo hi,
       process_plan_geojson plan = Ok (annotated k lo hi plan)
       /\ is_minimum lo (positive_rates k (features (geojson plan)))
       /\ is_maximum hi (positive_rates k (features (geojson plan)))
       /\ v22rate <$> features (geojson (annotated k lo hi plan)) =
            (fun f => Some (num (rate_of k f) / num hi)%Q)
              <$> features (geojson plan))
  /\ (forall plan f1 f2 f3,
        features (geojson plan) = [f1; f2; f3] ->
        known_rate_keys (properties f1) = {[ "rate" ]} ->
        properties f1 !! "rate" = Some (VNum 10) ->
        properties f2 !! "rate" = Some (VNum 20) ->
        properties f3 !! "rate" = Some (VNum 30) ->
        exists plan' v1 v2 v3,
          process_plan_geojson plan = Ok plan'
          /\ min_rate plan' = Some (VNum 10)
          /\ max_rate plan' = Some (VNum 30)
          /\ v22rate <$> features (geojson plan') =
               [Some v1; Some v2; Some v3]
          /\ (Qabs (v1 - 0.333) <= 0.001)%Q
          /\ (Qabs (v2 - 0.667) <= 0.001)%Q
          /\ (Qabs (v3 - 1.0) <= 0.001)%Q).
Proof.
  assert (forall plan first rest k,
     features (geojson plan) = first :: rest ->
     known_rate_keys (properties first) = {[ k ]} ->
     Forall (numeric_at k) (features (geojson plan)) ->
     positive_rates k (features (geojson plan)) <> [] ->
     exists lo hi,
       process_plan_geojson plan = Ok (annotated k lo hi plan)
       /\ is_minimum lo (positive_rates k (features (geojson plan)))
       /\ is_maximum hi (positive_rates k (features (geojson plan)))
       /\ v22rate <$> features (geojson (annotated k lo hi plan)) =
            (fun f => Some (num (rate_of k f) / num hi)%Q)
              <$> features (geojson plan)) as General.
  { intros plan first rest k Hf Hk Hall Hpos.
    destruct (annotate_ok k plan Hall Hpos) as (lo & hi & Hok & Hlo & Hhi).
    exists lo, hi. rewrite (process_unique _ _ _ _ Hf Hk).
    split_and!; [done.. |].
    simpl. rewrite <- list_fmap_compose. apply list_fmap_ext.
    intros i f _. simpl. apply v22rate_with. }
  split; [exact General |].
  intros plan f1 f2 f3 Hf Hk H1 H2 H3.
  assert (positive_rates "rate" (features (geojson plan)) =
          [VNum 10; VNum 20; VNum 30]) as Hpos.
  { rewrite Hf, !positive_rates_cons.
    by rewrite (rate_of_lookup _ _ _ H1), (rate_of_lookup _ _ _ H2),
               (rate_of_lookup _ _ _ H3). }
  destruct (General plan f1 [f2; f3] "rate" Hf Hk) as
    (lo & hi & Hok & [Hlo_in Hlo] & [Hhi_in Hhi] & Hv).
  { rewrite Hf. repeat constructor; eexists; split; by eauto. }
  { by rewrite Hpos. }
  rewrite Hpos in Hlo_in, Hlo, Hhi_in, Hhi.
  assert (lo = VNum 10) as ->.
  { pose proof (Hlo (VNum 10) (list_elem_of_here _ _)) as Hle.
    repeat (apply elem_of_cons in Hlo_in as [->|Hlo_in]; [done || by destruct Hle |]).
    by apply not_elem_of_nil in Hlo_in. }
  assert (hi = VNum 30) as ->.
  { assert (VNum 30 ∈ [VNum 10; VNum 20; VNum 30]) as H30
      by (do 2 apply list_elem_of_further; apply list_elem_of_here).
    pose proof (Hhi (VNum 30) H30) as Hle.
    repeat (apply elem_of_cons in Hhi_in as [->|Hhi_in]; [done || by destruct Hle |]).
    by apply not_elem_of_nil in Hhi_in. }
  exists (annotated "rate" (VNum 10) (VNum 30) plan),
    (10 / 30)%Q, (20 / 30)%Q, (30 / 30)%Q.
  split_and!; [done | done | done | | done..].
  rewrite Hv, Hf. simpl.
  by rewrite (rate_of_lookup _ _ _ H1), (rate_of_lookup _ _ _ H2),
             (rate_of_lookup _ _ _ H3).
Qed.

Lemma both_spellings_not_unique (first : gmap string pyval) :
  is_Some (first !! "RATE") -> is_Some (first !! "rate") ->
  size (known_rate_keys first) <> 1%nat.
Proof.
  intros HR Hr Hsize.
  assert ("RATE" ∈ known_rate_keys first) as H1.
  { apply elem_of_intersection. split; [by apply elem_of_dom |].
    unfold rate_aliases. rewrite !elem_of_union, !elem_of_singleton. tauto. }
  assert ("rate" ∈ known_rate_keys first) as H2.
  { apply elem_of_intersection. split; [by apply elem_of_dom |].
    unfold rate_aliases. rewrite !elem_of_union, !elem_of_singleton. tauto. }
  pose proof (size_singleton_inv _ _ _ Hsize H1 H2). discriminate.
Qed.

(** C6. The rate key is looked for in the intersection of the attribute
    names of the first feature with the four aliases.  The function fails
    with [NoUniqueRateKey] exactly when that intersection does not have
    one element; when it is the singleton of [k], the key is [k]; a first
    feature with both [RATE] and [rate] fails with [NoUniqueRateKey]. *)
Theorem rate_key_resolution plan first rest :
  features (geojson plan) = first :: rest ->
  known_rate_keys (properties first) =
    dom (properties first) ∩ {[ "RATE"; "Menge"; "rate"; "fertilizer" ]}
  /\ (process_plan_geojson plan = Raise NoUniqueRateKey <->
      size (known_rate_keys (properties first)) <> 1%nat)
  /\ (forall k,
        known_rate_keys (properties first) = {[ k ]} ->
        process_plan_geojson plan = annotate k plan)
  /\ (is_Some (properties first !! "RATE") ->
      is_Some (properties first !! "rate") ->
      process_plan_geojson plan = Raise NoUniqueRateKey).
Proof.
  intros Hf. split_and!.
  - reflexivity.
  - by apply process_key_error with rest.
  - intros k Hk. by apply process_unique with first rest.
  - intros HR Hr. apply (process_key_error _ _ _ Hf).
    by apply both_spellings_not_unique.
Qed.

(** C7, the failing path: the rate key is resolved and no feature holds a
    strictly positive value under it.  The function raises, and what it
    raises is not an error of its own making: with numbers under the key
    in every feature it is the [ValueError] of [min] on an empty list. *)
Theorem no_positive_rate_value_error plan first rest k :
  features (geojson plan) = first :: rest ->
  known_rate_keys (properties first) = {[ k ]} ->
  (forall f, f ∈ features (geojson plan) -> (num (rate_of k f) <= 0)%Q) ->
  exists e,
    process_plan_geojson plan = Raise e
    /\ is_explicit e = false
    /\ (Forall (numeric_at k) (features (geojson plan)) -> e = ValueError).
Proof.
  intros Hf Hk Hle. rewrite (process_unique _ _ _ _ Hf Hk).
  pose proof (no_positive_rates _ _ Hle) as Hnone.
  unfold annotate.
  destruct (rate_values k _) as [values|e] eqn:Hv; simpl.
  - apply rate_values_spec in Hv as [_ ->]. rewrite Hnone. simpl.
    by exists ValueError.
  - exists e. split; [done |].
    split; [by apply rate_values_raise in Hv as [-> | ->] |].
    intros Hall.
    pose proof (proj2 (rate_values_spec k _ _) (conj Hall eq_refl)).
    congruence.
Qed.


(** C10. The first feature resolves the rate key [k] and a later feature
    has no value under [k].  The function raises, and so do, each on its
    own, the comprehension that collects the rate values and the loop
    that sets [V22RATE]: both read [k] from every feature.  The exception
    is the [KeyError] of the lookup as soon as the values that are there
    are numbers. *)
Theorem missing_rate_key_raises plan first rest k :
  features (geojson plan) = first :: rest ->
  known_rate_keys (properties first) = {[ k ]} ->
  Exists (fun f => properties f !! k = None) rest ->
  (exists e, process_plan_geojson plan = Raise e
             /\ (e = KeyError k \/ e = TypeError))
  /\ (Forall (fun f => forall v, properties f !! k = Some v ->
                                 is_Some (as_number v))
             (features (geojson plan)) ->
      process_plan_geojson plan = Raise (KeyError k))
  /\ (exists e, rate_values k (features (geojson plan)) = Raise e)
  /\ (forall max_rate,
        exists e, set_v22rate k max_rate (features (geojson plan)) = Raise e).
Proof.
  intros Hf Hk Hex. rewrite (process_unique _ _ _ _ Hf Hk).
  assert (Exists (fun f => properties f !! k = None)
                 (features (geojson plan))) as Hex'
    by (rewrite Hf; by apply Exists_cons_tl).
  destruct (rate_values_missing _ _ Hex') as (e & He & Hkind).
  split_and!.
  - exists e. unfold annotate. by rewrite He.
  - intros Hnum. unfold annotate.
    by rewrite (rate_values_key_error _ _ Hex' Hnum).
  - by exists e.
  - intros max_rate. by apply set_v22rate_missing.
Qed.

End RateResolver.

(** ** [complete_project_file] *)

Section Assembler.
Context {B : Backend}.

(** C3. Without boundaries and without plan the function fails with
    [MissingBoundaryAndPlan]; with boundaries it returns the project as it
    is; without boundaries and with a plan it sets the boundaries to the
    collection of one feature, without properties, whose geometry is the
    union of the geometries of the plan; and a project it returns has
    boundaries. *)
Theorem complete_project_file_contract project_file :
  (boundaries project_file = None -> plan project_file = None ->
   complete_project_file project_file = Raise MissingBoundaryAndPlan)
  /\ (forall b,
        boundaries project_file = Some b ->
        complete_project_file project_file = Ok project_file)
  /\ (forall p kind coords t,
        boundaries project_file = None ->
        plan project_file = Some p ->
        unary_union (geometry <$> features p) = Ok (JGeometry kind coords) ->
        geometry_type_of kind = Some t ->
        complete_project_file project_file =
          Ok {| boundaries :=
                  Some {| features :=
                            [ {| geometry :=
                                   {| type := t; coordinates := coords |};
                                 properties := ∅ |} ] |};
                plan := Some p;
                settings := settings project_file |})
  /\ (forall completed,
        complete_project_file project_file = Ok completed ->
        is_Some (boundaries completed)).
Proof.
  unfold complete_project_file. split_and!.
  - by intros -> ->.
  - by intros b ->.
  - intros p kind coords t -> -> Hu Ht. rewrite Hu. simpl. by rewrite Ht.
  - intros completed. destruct (boundaries project_file) as [b|] eqn:Hb.
    + intros [= <-]. by rewrite Hb.
    + destruct (plan project_file) as [p|]; [|discriminate].
      destruct (unary_union _) as [j|]; simpl; [|discriminate].
      destruct (make_feature j); simpl; [|discriminate].
      intros [= <-]. by eexists.
Qed.

Lemma make_feature_raise (j : JsonGeometry) (e : exn) :
  make_feature j = Raise e -> e = ValidationError.
Proof.
  destruct j as [| |kind coords]; simpl; try by intros [= <-].
  destruct (geometry_type_of kind); [discriminate | by intros [= <-]].
Qed.

(** C8, the failing path: no boundaries and a plan without features.  The
    function has no test for it: it hands the empty list to the union, and
    an exception raised there escapes as it is; whatever the function
    raises comes from the union or from the validation of its result. *)
Theorem empty_plan_not_guarded project_file :
  boundaries project_file = None ->
  plan project_file = Some {| features := [] |} ->
  (forall e, unary_union [] = Raise e ->
             complete_project_file project_file = Raise e)
  /\ (forall e, complete_project_file project_file = Raise e ->
                unary_union [] = Raise e \/ e = ValidationError).
Proof.
  intros Hb Hp. unfold complete_project_file. rewrite Hb, Hp. simpl. split.
  - by intros e ->.
  - intros e. destruct (unary_union []) as [j|e'] eqn:Hu; simpl.
    + destruct (make_feature j) as [f|e'] eqn:Hm; simpl; [discriminate |].
      intros [= <-]. right. by apply make_feature_raise in Hm.
    + intros [= <-]. by left.
Qed.

End Assembler.

(** ** The statements at concrete inputs *)

(** An archive with one shapefile in UTM coordinates whose CRS does not
    come as an EPSG code: the conversion stops in [set_crs]. *)
Lemma shape_file_conversion_override_refused_run :
  @shape_file_conversion (sample_backend ["field.shp"] (Some utm32) [])
    [upload "field.zip"; upload "notes.txt"] "EPSG:4326"
  = Raise ValueError.
Proof.
  eapply (@shape_file_conversion_override_refused
            (sample_backend ["field.shp"] (Some utm32) [])); reflexivity.
Defined.

Lemma zip_entry_selection_run :
  @shape_file_conversion
    (sample_backend ["__MACOSX/field.shp"; "field.SHP"; "field.dbf"]
                    (Some "EPSG:25832") [])
    [upload "field.zip"] "EPSG:4326"
  = Ok {| file_name := "field";
          geojson := {| features := [] |};
          input_crs := "EPSG:4326";
          original_crs := Some "EPSG:25832";
          min_rate := None;
          max_rate := None |}.
Proof.
  pose proof (@zip_entry_selection
                (sample_backend
                   ["__MACOSX/field.shp"; "field.SHP"; "field.dbf"]
                   (Some "EPSG:25832") [])
                [upload "field.zip"] "EPSG:4326" "field.zip"
                [("/tmp/tmpq3/field.zip", [])]
                ["__MACOSX/field.shp"; "field.SHP"; "field.dbf"]
                eq_refl eq_refl eq_refl eq_refl) as (_ & _ & _ & Hone).
  destruct (Hone "field.SHP" eq_refl) as [_ ->]. reflexivity.
Defined.

Lemma empty_archive_index_error_run :
  @shape_file_conversion (sample_backend ["readme.txt"; "Rx/field.shp"] None [])
    [upload "field.zip"] "EPSG:4326"
  = Raise IndexError
  /\ is_explicit IndexError = false.
Proof.
  eapply (@empty_archive_index_error
            (sample_backend ["readme.txt"; "Rx/field.shp"] None []));
    reflexivity.
Defined.

Lemma rated_numeric (k : string) (q : Q) : numeric_at k (rated k (VNum q)).
Proof.
  exists (VNum q). split; [apply lookup_singleton_eq | by exists q].
Defined.

Lemma process_plan_geojson_rates_run :
  exists lo hi,
    process_plan_geojson three_rates = Ok (annotated "rate" lo hi three_rates)
    /\ is_minimum lo (positive_rates "rate" (features (geojson three_rates)))
    /\ is_maximum hi (positive_rates "rate" (features (geojson three_rates)))
    /\ v22rate <$> features (geojson (annotated "rate" lo hi three_rates)) =
         (fun f => Some (num (rate_of "rate" f) / num hi)%Q)
           <$> features (geojson three_rates).
Proof.
  apply (proj1 process_plan_geojson_rates three_rates
           (rated "rate" (VNum 10))
           [rated "rate" (VNum 20); rated "rate" (VNum 30)] "rate").
  - reflexivity.
  - vm_compute. reflexivity.
  - repeat constructor; apply rated_numeric.
  - vm_compute. discriminate.
Defined.

Lemma rate_key_resolution_run :
  process_plan_geojson two_spellings = Raise NoUniqueRateKey.
Proof.
  refine (proj2 (proj2 (proj2
            (rate_key_resolution two_spellings _ [] eq_refl))) _ _).
  - vm_compute. eauto.
  - vm_compute. eauto.
Defined.

Lemma no_positive_rate_value_error_run :
  exists e,
    process_plan_geojson no_positive_rate = Raise e
    /\ is_explicit e = false
    /\ (Forall (numeric_at "rate") (features (geojson no_positive_rate)) ->
        e = ValueError).
Proof.
  apply (no_positive_rate_value_error no_positive_rate
           (rated "rate" (VNum 0)) [rated "rate" (VNum (-3))] "rate").
  - reflexivity.
  - vm_compute. reflexivity.
  - intros f Hf. simpl in Hf.
    repeat (apply elem_of_cons in Hf as [->|Hf]; [vm_compute; discriminate |]).
    by apply not_elem_of_nil in Hf.
Defined.



Lemma missing_rate_key_raises_run :
  process_plan_geojson gap_in_rates = Raise (KeyError "rate").
Proof.
  refine (proj1 (proj2
            (missing_rate_key_raises gap_in_rates (rated "rate" (VNum 10))
               [ {| geometry := square;
                    properties := {[ "name" := VStr "north" ]} |} ]
               "rate" eq_refl _ _)) _).
  - vm_compute. reflexivity.
  - apply Exists_cons_hd. vm_compute. reflexivity.
  - repeat constructor; simpl; intros v Hv.
    + rewrite lookup_singleton_eq in Hv. injection Hv as <-. by eexists.
    + vm_compute in Hv. discriminate.
Defined.

Lemma complete_project_file_contract_run :
  @complete_project_file (sample_backend [] None [])
    (only_plan [rated "rate" (VNum 10)])
  = Ok {| boundaries :=
            Some {| features :=
                      [ {| geometry := square; properties := ∅ |} ] |};
          plan := Some {| features := [rated "rate" (VNum 10)] |};
          settings := default_settings |}.
Proof.
  refine (proj1 (proj2 (proj2
            (@complete_project_file_contract (sample_backend [] None [])
               (only_plan [rated "rate" (VNum 10)]))))
            _ "Polygon" _ Polygon eq_refl eq_refl eq_refl eq_refl).
Defined.

Lemma empty_plan_not_guarded_run :
  @complete_project_file (sample_backend [] None []) (only_plan [])
  = Raise (OtherError "AttributeError").
Proof.
  refine (proj1 (@empty_plan_not_guarded (sample_backend [] None [])
                   (only_plan []) eq_refl eq_refl) _ eq_refl).
Defined.
Example splitext_plain : Str.splitext "field.SHP" = ("field", ".SHP").
Proof. reflexivity. Qed.
Example splitext_hidden : Str.splitext ".zip" = (".zip", EmptyString).
Proof. reflexivity. Qed.
Example splitext_dir : Str.splitext "a.b/c" = ("a.b/c", EmptyString).
Proof. reflexivity. Qed.
Example splitext_dots : Str.splitext "x/..a.tar.zip" = ("x/..a.tar", ".zip").
Proof. reflexivity. Qed.
Example epsg_ok : Epsg.matches "EPSG:25832" = true.
Proof. reflexivity. Qed.
Example epsg_mixed : Epsg.matches "Epsg:4326" = false.
Proof. reflexivity. Qed.
Example epsg_six : Epsg.matches "epsg:123456" = false.
Proof. reflexivity. Qed.
Example epsg_lf : Epsg.matches ("EPSG:4326" +:+ Epsg.LF) = true.
Proof. reflexivity. Qed.

(** * Further properties *)

(** ** File names *)

Module PathFacts.
Import Str StrFacts.

Lemma lower_app (x y : string) : lower (x +:+ y) = lower x +:+ lower y.
Proof.
  induction x as [|c x IH]; [done |].
  rewrite app_cons. simpl. by rewrite IH, app_cons.
Qed.

Lemma length_lower (x : string) : String.length (lower x) = String.length x.
Proof. induction x as [|c x IH]; simpl; [done | by rewrite IH]. Qed.

(** Equal strings that end in parts of the same length end in the same
    part. *)
Lemma app_inj_tail (x y s t : string) :
  x +:+ s = y +:+ t -> String.length s = String.length t -> s = t.
Proof.
  revert y. induction x as [|a x IH]; intros y Heq Hlen.
  - rewrite app_empty_l in Heq. destruct y as [|b y]; [done |].
    apply (f_equal String.length) in Heq.
    rewrite length_app in Heq. simpl in Heq. lia.
  - destruct y as [|b y].
    + rewrite app_empty_l in Heq. apply (f_equal String.length) in Heq.
      rewrite length_app in Heq. simpl in Heq. lia.
    + rewrite !app_cons in Heq. injection Heq as _ Heq. by apply (IH y).
Qed.

Lemma rfind_from_range (c : ascii) (s : string) (i last : Z) :
  rfind_from c s i last = last
  \/ (i <= rfind_from c s i last < i + Z.of_nat (String.length s))%Z.
Proof.
  revert i last. induction s as [|a s IH]; intros i last; simpl; [by left |].
  destruct (IH (i + 1)%Z (if Ascii.eqb a c then i else last)) as [-> | Hr].
  - destruct (Ascii.eqb a c); [right; lia | by left].
  - right. lia.
Qed.

Lemma rfind_range (s : string) (c : ascii) :
  (-1 <= rfind s c < Z.of_nat (String.length s))%Z.
Proof.
  unfold rfind. destruct (rfind_from_range c s 0 (-1)) as [-> | Hr]; lia.
Qed.

(** [root + ext == path], as the documentation of [os.path.splitext] has
    it. *)
Lemma splitext_app (p : string) : (splitext p).1 +:+ (splitext p).2 = p.
Proof.
  unfold splitext. pose proof (rfind_range p ".") as Hdot.
  pose proof (rfind_range p "/") as Hsep.
  destruct (_ && _) eqn:E; simpl; [|apply app_empty_r].
  apply andb_true_iff in E as [Hlt _]. apply Z.ltb_lt in Hlt.
  unfold upto, from. symmetry. apply split_at. lia.
Qed.

End PathFacts.

(** ** More on [shape_file_conversion] *)

Section ConversionMore.
Context {B : Backend}.
Import StrFacts PathFacts.

Lemma filter_two {A} (P : A -> bool) (l : list A) (i j : nat) (a b : A) :
  (i < j)%nat -> l !! i = Some a -> l !! j = Some b ->
  P a = true -> P b = true ->
  exists x y r, List.filter P l = x :: y :: r.
Proof.
  intros Hij Ha Hb Pa Pb.
  rewrite <- (take_drop_middle l i a Ha), List.filter_app. simpl. rewrite Pa.
  assert (In b (List.filter P (drop (S i) l))) as Hin.
  { apply filter_In. split; [|done]. apply list_elem_of_In.
    apply list_elem_of_lookup. exists (j - S i)%nat.
    rewrite lookup_drop. by replace (S i + (j - S i))%nat with j by lia. }
  destruct (List.filter P (take i l)) as [|x [|y r]];
    destruct (List.filter P (drop (S i) l)) as [|z r']; try done; simpl; eauto.
Qed.

(** The number of uploads with a spatial extension decides first: none is
    the 404 of [NoSpatialData], two or more the 500 of [AmbiguousInput],
    whatever the files hold and before anything is written or read. *)
Theorem candidate_count_decides files input :
  (Forall (fun f => is_candidate f = false) files ->
   shape_file_conversion files input = Raise NoSpatialData)
  /\ (forall i j f1 f2,
        i <> j -> files !! i = Some f1 -> files !! j = Some f2 ->
        is_candidate f1 = true -> is_candidate f2 = true ->
        shape_file_conversion files input = Raise AmbiguousInput).
Proof.
  split.
  - intros Hnone. unfold shape_file_conversion. cbv zeta.
    assert (List.filter is_candidate files = []) as ->; [|done].
    induction Hnone as [|f l Hf _ IH]; simpl; [done | by rewrite Hf].
  - intros i j f1 f2 Hij H1 H2 P1 P2.
    assert (exists x y r, List.filter is_candidate files = x :: y :: r)
      as (x & y & r & E).
    { destruct (Nat.lt_total i j) as [Hlt|[->|Hlt]]; [| done |].
      - by apply (filter_two _ _ i j f1 f2).
      - by apply (filter_two _ _ j i f2 f1). }
    unfold shape_file_conversion. cbv zeta. by rewrite E.
Qed.

(** What a successful conversion went through. *)
Lemma shape_file_conversion_inv files input plan :
  shape_file_conversion files input = Ok plan ->
  exists f d g original g' out,
    List.filter is_candidate files = [f]
    /\ write_files fresh_dir files = Ok d
    /\ read_candidate d (filename f) = Ok g
    /\ resolve_crs g input = Ok (original, g')
    /\ to_crs g' "EPSG:4326" = Ok out
    /\ plan = {| file_name := (Str.splitext (filename f)).1;
                 geojson := to_json out;
                 input_crs := input;
                 original_crs := original;
                 min_rate := None;
                 max_rate := None |}.
Proof.
  unfold shape_file_conversion. cbv zeta.
  destruct (List.filter is_candidate files) as [|f [|f' l]] eqn:Hc; simpl;
    [discriminate | | discriminate].
  destruct (write_files fresh_dir files) as [d|] eqn:Hw; simpl;
    [|discriminate].
  destruct (read_candidate d (filename f)) as [g|] eqn:Hr; simpl;
    [|discriminate].
  destruct (resolve_crs g input) as [[original g']|] eqn:Hres; simpl;
    [|discriminate].
  destruct (to_crs g' "EPSG:4326") as [out|] eqn:Ht; simpl; [|discriminate].
  intros [= <-]. by exists f, d, g, original, g', out.
Qed.

Lemma spatial_extension_cases (e : string) :
  spatial_extension e = true ->
  e = ".shp" \/ e = ".zip" \/ e = ".json" \/ e = ".geojson".
Proof.
  unfold spatial_extension. intros H. apply bool_decide_eq_true in H.
  repeat (apply elem_of_cons in H as [->|H]; [tauto |]).
  by apply not_elem_of_nil in H.
Qed.

(** The [file_name] of a successful conversion is the name of the one
    uploaded file with a spatial extension, less that extension, which is
    [.shp], [.zip], [.json] or [.geojson] in any mix of cases. *)
Theorem file_name_is_stem files input plan :
  shape_file_conversion files input = Ok plan ->
  exists f ext,
    f ∈ files
    /\ List.filter is_candidate files = [f]
    /\ filename f = file_name plan +:+ ext
    /\ (Str.lower ext = ".shp" \/ Str.lower ext = ".zip"
        \/ Str.lower ext = ".json" \/ Str.lower ext = ".geojson")
    /\ input_crs plan = input.
Proof.
  intros Hok.
  apply shape_file_conversion_inv in Hok
    as (f & d & g & original & g' & out & Hc & _ & _ & _ & _ & ->).
  assert (In f (List.filter is_candidate files)) as Hin
    by (rewrite Hc; by left).
  apply filter_In in Hin as [Hin Hcand].
  exists f, (Str.splitext (filename f)).2. simpl. split_and!.
  - by apply list_elem_of_In.
  - done.
  - symmetry. apply splitext_app.
  - by apply spatial_extension_cases.
  - done.
Qed.

Lemma not_endswith_zip (x e : string) :
  String.length e = 4%nat -> e <> ".zip" ->
  Str.endswith (x +:+ e) ".zip" = false.
Proof.
  intros Hlen Hne. apply not_true_iff_false. intros H.
  apply endswith_spec in H as [y Hy].
  by apply app_inj_tail in Hy.
Qed.

(** The test that sends the candidate to [zipfile] agrees with the test
    that made it a candidate: a candidate is opened as an archive exactly
    when its extension is [.zip] in some mix of cases. *)
Theorem archive_test_agrees f :
  is_candidate f = true ->
  Str.endswith (Str.lower (filename f)) ".zip" = true
  <-> Str.lower (Str.splitext (filename f)).2 = ".zip".
Proof.
  intros Hcand. unfold is_candidate in Hcand.
  apply spatial_extension_cases in Hcand.
  rewrite <- (splitext_app (filename f)) at 1. rewrite lower_app.
  set (root := Str.lower (Str.splitext (filename f)).1) in *.
  destruct Hcand as [-> | [-> | [-> | ->]]].
  - rewrite not_endswith_zip by done. split; discriminate.
  - split; [done |]. intros _. apply endswith_spec. by exists root.
  - replace (root +:+ ".json") with ((root +:+ ".") +:+ "json")
      by (by rewrite app_assoc).
    rewrite not_endswith_zip by done. split; discriminate.
  - replace (root +:+ ".geojson") with ((root +:+ ".geo") +:+ "json")
      by (by rewrite app_assoc).
    rewrite not_endswith_zip by done. split; discriminate.
Qed.

End ConversionMore.

(** ** More on [process_plan_geojson] *)

Module RateMore.
Import NumFacts RateFacts.

Lemma alias_not_v22rate (k : string) : k ∈ rate_aliases -> k <> "V22RATE".
Proof.
  unfold rate_aliases. rewrite !elem_of_union, !elem_of_singleton.
  intros [[[-> | ->] | ->] | ->]; discriminate.
Qed.

Lemma resolved_is_alias (first : gmap string pyval) (k : string) :
  known_rate_keys first = {[ k ]} -> k ∈ rate_aliases /\ k ∈ dom first.
Proof.
  intros Hk. assert (k ∈ known_rate_keys first) as Hin
    by (rewrite Hk; by apply elem_of_singleton).
  apply elem_of_intersection in Hin. tauto.
Qed.

Lemma known_rate_keys_insert (m : gmap string pyval) (r : pyval) :
  known_rate_keys (<["V22RATE" := r]> m) = known_rate_keys m.
Proof.
  unfold known_rate_keys. rewrite dom_insert_L. apply set_eq. intros x.
  rewrite !elem_of_intersection, elem_of_union, elem_of_singleton.
  split; [|tauto]. intros [[-> | Hx] Ha]; [|done].
  by apply alias_not_v22rate in Ha.
Qed.

Lemma rate_of_with (k : string) (hi : pyval) (f : Feature) :
  k <> "V22RATE" -> rate_of k (with_v22rate k hi f) = rate_of k f.
Proof.
  intros Hk. unfold rate_of, with_v22rate. simpl.
  by rewrite lookup_insert_ne.
Qed.

Lemma numeric_at_with (k : string) (hi : pyval) (f : Feature) :
  k <> "V22RATE" -> numeric_at k f -> numeric_at k (with_v22rate k hi f).
Proof.
  intros Hk (v & Hv & Hn). exists v. split; [|done].
  unfold with_v22rate. simpl. by rewrite lookup_insert_ne.
Qed.

Lemma with_v22rate_twice (k : string) (hi : pyval) (f : Feature) :
  k <> "V22RATE" ->
  with_v22rate k hi (with_v22rate k hi f) = with_v22rate k hi f.
Proof.
  intros Hk. unfold with_v22rate at 1. rewrite (rate_of_with _ _ _ Hk).
  unfold with_v22rate. simpl. by rewrite insert_insert_eq.
Qed.

Lemma positive_rates_nonempty (k : string) (fs : list Feature) :
  positive_rates k fs <> [] <->
  Exists (fun f => (0 < num (rate_of k f))%Q) fs.
Proof.
  rewrite Exists_exists. split.
  - destruct (positive_rates k fs) as [|v l] eqn:E; [done |]. intros _.
    assert (v ∈ positive_rates k fs) as Hv
      by (rewrite E; apply list_elem_of_here).
    apply elem_of_positive_rates in Hv as [(f & Hf & ->) Hpos]. eauto.
  - intros (f & Hf & Hpos) E.
    assert (rate_of k f ∈ positive_rates k fs) as Hin
      by (apply elem_of_positive_rates; eauto).
    rewrite E in Hin. by apply not_elem_of_nil in Hin.
Qed.

(** The equations behind a successful [annotate]. *)
Lemma annotate_inv_eq (k : string) (plan plan' : Plan) :
  annotate k plan = Ok plan' ->
  Forall (numeric_at k) (features (geojson plan))
  /\ exists lo hi,
       py_min (positive_rates k (features (geojson plan))) = Ok lo
       /\ py_max (positive_rates k (features (geojson plan))) = Ok hi
       /\ plan' = annotated k lo hi plan.
Proof.
  unfold annotate.
  destruct (rate_values k _) as [values|] eqn:Hv; simpl; [|discriminate].
  apply rate_values_spec in Hv as [Hall ->].
  destruct (py_min _) as [lo|] eqn:Hlo; simpl; [|discriminate].
  destruct (py_max _) as [hi|] eqn:Hhi; simpl; [|discriminate].
  pose proof (py_max_inv _ _ Hhi) as Hmax.
  rewrite (set_v22rate_ok _ _ _ Hall (maximum_positive _ _ _ Hmax)). simpl.
  intros [= <-]. split; [done |]. by exists lo, hi.
Qed.

Lemma annotate_of (k : string) (plan : Plan) (lo hi : pyval) :
  Forall (numeric_at k) (features (geojson plan)) ->
  py_min (positive_rates k (features (geojson plan))) = Ok lo ->
  py_max (positive_rates k (features (geojson plan))) = Ok hi ->
  annotate k plan = Ok (annotated k lo hi plan).
Proof.
  intros Hall Hlo Hhi. unfold annotate.
  rewrite (proj2 (rate_values_spec k _ _) (conj Hall eq_refl)). simpl.
  rewrite Hlo, Hhi. simpl.
  pose proof (py_max_inv _ _ Hhi) as Hmax.
  by rewrite (set_v22rate_ok _ _ _ Hall (maximum_positive _ _ _ Hmax)).
Qed.

(** What a successful run went through. *)
Lemma process_inv (plan plan' : Plan) :
  process_plan_geojson plan = Ok plan' ->
  exists first rest k,
    features (geojson plan) = first :: rest
    /\ known_rate_keys (properties first) = {[ k ]}
    /\ annotate k plan = Ok plan'.
Proof.
  unfold process_plan_geojson.
  destruct (features (geojson plan)) as [|first rest] eqn:Hf; [discriminate |].
  destruct (elements _) as [|k [|k' l]] eqn:E; [discriminate | | discriminate].
  intros Hok. exists first, rest, k. split_and!; [done | | done].
  by apply elements_one.
Qed.

(** Why the comprehension stops: a feature without the key, or a value
    under the key that is not a number. *)
Lemma rate_values_raise_why (k : string) (fs : list Feature) (e : exn) :
  rate_values k fs = Raise e ->
  (e = KeyError k /\ Exists (fun f => properties f !! k = None) fs)
  \/ (e = TypeError
      /\ Exists (fun f => exists v, properties f !! k = Some v
                                    /\ as_number v = None) fs).
Proof.
  induction fs as [|f fs IH]; simpl; [discriminate |].
  unfold getitem. destruct (properties f !! k) as [v|] eqn:Hv; simpl;
    [|intros [= <-]; left; split; [done | by apply Exists_cons_hd]].
  unfold gt0. destruct (as_number v) eqn:Hn; simpl;
    [|intros [= <-]; right; split; [done | apply Exists_cons_hd; eauto]].
  destruct (rate_values k fs); simpl; [discriminate |].
  intros [= <-]. destruct (IH eq_refl) as [[-> Hex] | [-> Hex]];
    [left | right]; (split; [done | by apply Exists_cons_tl]).
Qed.

End RateMore.

Section RateResolverMore.
Import NumFacts RateFacts RateMore.

(** The function returns a plan exactly when the plan has a first feature,
    that feature holds exactly one of the four aliases, every feature holds
    a number under it, and one of these numbers is strictly positive. *)
Theorem process_plan_geojson_succeeds_iff plan :
  (exists plan', process_plan_geojson plan = Ok plan') <->
  exists first rest k,
    features (geojson plan) = first :: rest
    /\ known_rate_keys (properties first) = {[ k ]}
    /\ Forall (numeric_at k) (features (geojson plan))
    /\ Exists (fun f => (0 < num (rate_of k f))%Q) (features (geojson plan)).
Proof.
  split.
  - intros [plan' Hok].
    apply process_inv in Hok as (first & rest & k & Hf & Hk & Hok).
    apply annotate_inv in Hok as (Hall & lo & hi & _ & [Hlo _] & _).
    exists first, rest, k. split_and!; [done.. |].
    apply positive_rates_nonempty. intros E. rewrite E in Hlo.
    by apply not_elem_of_nil in Hlo.
  - intros (first & rest & k & Hf & Hk & Hall & Hex).
    apply positive_rates_nonempty in Hex.
    destruct (annotate_ok k plan Hall Hex) as (lo & hi & Hok & _).
    rewrite (process_unique _ _ _ _ Hf Hk). eauto.
Qed.

(** Every way the function can fail, with its cause.  In particular the
    division by [max_rate] never fails: the loop that sets [V22RATE] is only
    reached with a number under the key in every feature and a strictly
    positive [max_rate]. *)
Theorem process_plan_geojson_errors plan e :
  process_plan_geojson plan = Raise e ->
  (e = IndexError /\ features (geojson plan) = [])
  \/ exists first rest,
       features (geojson plan) = first :: rest
       /\ ((e = NoUniqueRateKey
            /\ size (known_rate_keys (properties first)) <> 1%nat)
           \/ exists k,
                known_rate_keys (properties first) = {[ k ]}
                /\ ((e = KeyError k
                     /\ Exists (fun f => properties f !! k = None)
                               (features (geojson plan)))
                    \/ (e = TypeError
                        /\ Exists (fun f => exists v,
                                     properties f !! k = Some v
                                     /\ as_number v = None)
                                  (features (geojson plan)))
                    \/ (e = ValueError
                        /\ Forall (numeric_at k) (features (geojson plan))
                        /\ Forall (fun f => (num (rate_of k f) <= 0)%Q)
                                  (features (geojson plan))))).
Proof.
  intros Hr.
  destruct (features (geojson plan)) as [|first rest] eqn:Hf.
  { left. unfold process_plan_geojson in Hr. rewrite Hf in Hr.
    by injection Hr as <-. }
  right. exists first, rest. split; [done |].
  destruct (decide (size (known_rate_keys (properties first)) = 1%nat))
    as [Hone|Hmany].
  - right. apply size_1_elem_of in Hone as [k Hk].
    apply leibniz_equiv in Hk. exists k. split; [done |].
    rewrite (process_unique _ _ _ _ Hf Hk) in Hr. rewrite <- Hf.
    unfold annotate in Hr.
    destruct (rate_values k _) as [values|e1] eqn:Hv; simpl in Hr.
    + apply rate_values_spec in Hv as [Hall ->].
      destruct (positive_rates k _) as [|v l] eqn:Hpos; simpl in Hr.
      * injection Hr as <-. right. right. split_and!; [done.. |].
        apply Forall_forall. intros f Hf'.
        destruct (Qlt_le_dec 0 (num (rate_of k f))) as [Hp|]; [|done].
        assert (rate_of k f ∈ positive_rates k (features (geojson plan)))
          as Hin by (apply elem_of_positive_rates; eauto).
        rewrite Hpos in Hin. by apply not_elem_of_nil in Hin.
      * assert (is_maximum (max_from v l) (positive_rates k
                  (features (geojson plan)))) as Hmax
          by (rewrite Hpos; apply max_from_spec).
        rewrite (set_v22rate_ok _ _ _ Hall (maximum_positive _ _ _ Hmax))
          in Hr.
        discriminate.
    + injection Hr as <-.
      apply rate_values_raise_why in Hv as [[-> Hex] | [-> Hex]]; eauto.
  - left. split; [|done]. pose proof (process_key_error plan first rest Hf).
    assert (process_plan_geojson plan = Raise NoUniqueRateKey) as Hn by tauto.
    congruence.
Qed.

(** A successful run changes nothing but what it adds: the file name and
    the two CRS entries, the number and order of the features, every
    geometry, and every property other than [V22RATE] are as they were. *)
Theorem process_plan_geojson_preserves plan plan' :
  process_plan_geojson plan = Ok plan' ->
  file_name plan' = file_name plan
  /\ input_crs plan' = input_crs plan
  /\ original_crs plan' = original_crs plan
  /\ geometry <$> features (geojson plan')
     = geometry <$> features (geojson plan)
  /\ forall i f',
       features (geojson plan') !! i = Some f' ->
       exists f,
         features (geojson plan) !! i = Some f
         /\ forall key, key <> "V22RATE" ->
                        properties f' !! key = properties f !! key.
Proof.
  intros Hok. apply process_inv in Hok as (first & rest & k & _ & _ & Hok).
  apply annotate_inv in Hok as (_ & lo & hi & -> & _). simpl.
  split_and!; [done.. | |].
  - rewrite <- list_fmap_compose. by apply list_fmap_ext.
  - intros i f' Hi. apply list_lookup_fmap_Some in Hi as (f & -> & Hi).
    exists f. split; [done |]. intros key Hkey. simpl.
    by rewrite lookup_insert_ne.
Qed.

(** After a successful run [min_rate] is strictly positive and at most
    [max_rate]. *)
Theorem min_rate_le_max_rate plan plan' :
  process_plan_geojson plan = Ok plan' ->
  exists lo hi,
    min_rate plan' = Some lo
    /\ max_rate plan' = Some hi
    /\ (0 < num lo)%Q
    /\ (num lo <= num hi)%Q.
Proof.
  intros Hok. apply process_inv in Hok as (first & rest & k & _ & _ & Hok).
  apply annotate_inv in Hok as (_ & lo & hi & -> & [Hlo_in Hlo] & [Hhi_in _]).
  exists lo, hi. split_and!; [done | done | | by apply Hlo].
  by apply elem_of_positive_rates in Hlo_in as [_ ?].
Qed.


Lemma div_self (h : Q) : (0 < h)%Q -> (h / h == 1)%Q.
Proof.
  intros Hh. unfold Qdiv. apply Qmult_inv_r. intros E.
  rewrite E in Hh. by apply Qlt_irrefl in Hh.
Qed.


(** Running the function on its own result gives that result again: the
    key it resolves, the rate values and so [min_rate], [max_rate] and
    every [V22RATE] are the same the second time. *)
Theorem process_plan_geojson_idempotent plan plan' :
  process_plan_geojson plan = Ok plan' ->
  process_plan_geojson plan' = Ok plan'.
Proof.
  intros Hok. apply process_inv in Hok as (first & rest & k & Hf & Hk & Hok).
  apply annotate_inv_eq in Hok as (Hall & lo & hi & Hlo & Hhi & ->).
  destruct (resolved_is_alias _ _ Hk) as [Halias _].
  pose proof (alias_not_v22rate _ Halias) as Hne.
  assert (rate_of k <$> (with_v22rate k hi <$> features (geojson plan))
          = rate_of k <$> features (geojson plan)) as Hrates.
  { rewrite <- list_fmap_compose. apply list_fmap_ext. intros i f _.
    by apply rate_of_with. }
  rewrite (process_unique (annotated k lo hi plan)
             (with_v22rate k hi first) (with_v22rate k hi <$> rest) k).
  - rewrite (annotate_of k (annotated k lo hi plan) lo hi).
    + assert (with_v22rate k hi
                <$> (with_v22rate k hi <$> features (geojson plan))
              = with_v22rate k hi <$> features (geojson plan)) as Htwice.
      { rewrite <- list_fmap_compose. apply list_fmap_ext. intros i f _.
        by apply with_v22rate_twice. }
      unfold annotated. simpl. by rewrite Htwice.
    + simpl. apply Forall_fmap. eapply Forall_impl; [exact Hall |].
      intros f. by apply numeric_at_with.
    + simpl. unfold positive_rates in *. by rewrite Hrates.
    + simpl. unfold positive_rates in *. by rewrite Hrates.
  - simpl. by rewrite Hf.
  - simpl. by rewrite known_rate_keys_insert.
Qed.

End RateResolverMore.

(** ** More on [complete_project_file] and the endpoints *)

Section AssemblerMore.
Context {B : Backend}.
Import NumFacts RateFacts RateMore.

Lemma geometry_type_of_name (kind : string) (t : GeometryType) :
  geometry_type_of kind = Some t <-> kind = type_name t.
Proof.
  unfold geometry_type_of. split.
  - repeat match goal with
           | |- context [String.eqb kind ?name] =>
               destruct (String.eqb_spec kind name) as [->|_];
                 [by intros [= <-] |]
           end.
    discriminate.
  - intros ->. by destruct t.
Qed.

Lemma type_name_inj (t t' : GeometryType) :
  type_name t = type_name t' -> t = t'.
Proof. by destruct t, t'. Qed.

(** The validation of the [Geometry] model lets through the six kinds, by
    their exact names, and nothing else. *)
Lemma make_feature_ok (j : JsonGeometry) (f : Feature) :
  make_feature j = Ok f <->
  exists t coords,
    j = JGeometry (type_name t) coords
    /\ f = {| geometry := {| type := t; coordinates := coords |};
              properties := ∅ |}.
Proof.
  split.
  - destruct j as [| |kind coords]; simpl; [discriminate.. |].
    destruct (geometry_type_of kind) as [t|] eqn:E; [|discriminate].
    intros [= <-]. apply geometry_type_of_name in E as ->. by exists t, coords.
  - intros (t & coords & -> & ->). simpl.
    by rewrite (proj2 (geometry_type_of_name _ t) eq_refl).
Qed.

(** A union that is not a geometry of one of the six kinds (a geometry
    collection, a null geometry, a kind under another name) is refused: the
    function raises [ValidationError], and it does so in this case only. *)
Theorem union_of_other_kind_rejected project_file p j :
  boundaries project_file = None ->
  plan project_file = Some p ->
  unary_union (geometry <$> features p) = Ok j ->
  complete_project_file project_file = Raise ValidationError
  <-> ~ exists t coords, j = JGeometry (type_name t) coords.
Proof.
  intros Hb Hp Hu. unfold complete_project_file. rewrite Hb, Hp, Hu. simpl.
  destruct (make_feature j) as [f|e] eqn:Hm; simpl.
  - apply make_feature_ok in Hm as (t & coords & -> & _).
    split; [discriminate |]. intros Hno. destruct Hno. eauto.
  - apply make_feature_raise in Hm as Hv. subst e. split; [|done].
    intros _ (t & coords & ->).
    assert (exists f, make_feature (JGeometry (type_name t) coords) = Ok f)
      as [f Hf] by (eexists; apply make_feature_ok; eauto).
    congruence.
Qed.

(** A completed project is complete: the function returns it as it is.
    Completing never touches the plan or the settings. *)
Theorem complete_project_file_idempotent project_file completed :
  complete_project_file project_file = Ok completed ->
  complete_project_file completed = Ok completed
  /\ plan completed = plan project_file
  /\ settings completed = settings project_file.
Proof.
  unfold complete_project_file at 1.
  destruct (boundaries project_file) as [b|] eqn:Hb.
  - intros [= <-]. unfold complete_project_file. by rewrite Hb.
  - destruct (plan project_file) as [p|] eqn:Hp; [|discriminate].
    destruct (unary_union _) as [j|]; simpl; [|discriminate].
    destruct (make_feature j); simpl; [|discriminate].
    by intros [= <-].
Qed.

Lemma to_crs_inv (g out : GeoDataFrame CRS) (target : string) :
  to_crs g target = Ok out ->
  exists src dst,
    crs g = Some src
    /\ crs_from_user_input target = Ok dst
    /\ out = {| crs := Some dst; rows := reproject src dst <$> rows g |}.
Proof.
  unfold to_crs. destruct (crs g) as [src|]; [|discriminate].
  destruct (crs_from_user_input target) as [dst|]; simpl; [|discriminate].
  intros [= <-]. by exists src, dst.
Qed.

Lemma positive_rates_reproject (k : string) (src dst : CRS)
    (fs : list Feature) :
  positive_rates k (reproject src dst <$> fs) = positive_rates k fs.
Proof.
  unfold positive_rates. f_equal. rewrite <- list_fmap_compose.
  by apply list_fmap_ext.
Qed.

(** [convert_plan_shape_files], when it returns.  One upload was a
    candidate and the dataset read from it has rows.  The first row
    resolves the rate key [k], and [max_rate] is the maximum of the
    strictly positive values under [k].  The features are the rows, in
    their order, each with its geometry reprojected to EPSG:4326 from the
    effective CRS (the default when none was detected, the detected CRS
    when its descriptor has the EPSG form, and otherwise the default, which
    then equals the detected CRS) and with [V22RATE], its value under [k]
    divided by [max_rate], added to the properties it had.  The default CRS
    is reported as [input_crs] and the descriptor of the detected CRS as
    [original_crs]. *)
Theorem convert_plan_shape_files_result files plan :
  convert_plan_shape_files files = Ok plan ->
  exists f d g eff wgs84 first rest k hi,
    List.filter is_candidate files = [f]
    /\ write_files fresh_dir files = Ok d
    /\ read_candidate d (filename f) = Ok g
    /\ crs_from_user_input "EPSG:4326" = Ok wgs84
    /\ match crs g with
       | None => crs_from_user_input "EPSG:4326" = Ok eff
       | Some c =>
           if Epsg.matches (crs_srs c) then eff = c
           else crs_from_user_input "EPSG:4326" = Ok eff
                /\ crs_eq c eff = true
       end
    /\ rows g = first :: rest
    /\ known_rate_keys (properties first) = {[ k ]}
    /\ is_maximum hi (positive_rates k (rows g))
    /\ features (geojson plan)
       = with_v22rate k hi <$> (reproject eff wgs84 <$> rows g)
    /\ max_rate plan = Some hi
    /\ input_crs plan = "EPSG:4326"
    /\ original_crs plan = crs_srs <$> crs g.
Proof.
  unfold convert_plan_shape_files.
  destruct (shape_file_conversion files "EPSG:4326") as [converted|] eqn:Hc;
    simpl; [|discriminate].
  intros Hok.
  apply shape_file_conversion_inv in Hc
    as (f & d & g & original & g' & out & Hcand & Hw & Hr & Hres & Ht & ->).
  apply to_crs_inv in Ht as (src & dst & Hsrc & Hdst & ->).
  apply process_inv in Hok as (first' & rest' & k & Hfirst & Hk & Hok).
  apply annotate_inv in Hok as (_ & lo & hi & -> & _ & Hhi). simpl in *.
  pose proof (resolve_crs_tagged _ _ _ _ Hres) as (Hrows & eff & Heff & Hcase).
  rewrite Hsrc in Heff. injection Heff as <-.
  rewrite Hrows in Hfirst, Hhi |- *.
  apply fmap_cons_inv in Hfirst as (first & rest & -> & -> & Hg).
  rewrite positive_rates_reproject in Hhi.
  exists f, d, g, src, dst, first, rest, k, hi.
  split_and!; [done.. |].
  unfold resolve_crs in Hres. destruct (crs g) as [c|]; simpl.
  - destruct (Epsg.matches (crs_srs c)).
    + by injection Hres as <- _.
    + destruct (set_crs g "EPSG:4326"); simpl in Hres; [|discriminate].
      by injection Hres as <- _.
  - destruct (set_crs g "EPSG:4326"); simpl in Hres; [|discriminate].
    by injection Hres as <- _.
Qed.

End AssemblerMore.

Section ProjectEndpoint.
Context {B : Backend}.
Variable geometries_valid : FeatureCollection -> bool.

(** [convert_plan_shape_to_project] returns a project exactly when
    [convert_plan_shape_files] returns a plan, the validation of line 209
    accepts its features, and the union of their geometries is of one of
    the six kinds.  The project then has the features of the plan, with
    their [V22RATE], as its plan, the union as the one boundary feature,
    without properties, and the default settings; [min_rate], [max_rate],
    the file name and the CRS entries are not part of it.  When the
    validation refuses the features, the endpoint raises
    [ValidationError]. *)
Theorem convert_plan_shape_to_project_result files :
  (forall project,
     convert_plan_shape_to_project geometries_valid files = Ok project <->
     exists processed t coords,
       convert_plan_shape_files files = Ok processed
       /\ geometries_valid (geojson processed) = true
       /\ unary_union (geometry <$> features (geojson processed))
          = Ok (JGeometry (type_name t) coords)
       /\ project =
            {| boundaries :=
                 Some {| features :=
                           [ {| geometry :=
                                  {| type := t; coordinates := coords |};
                                properties := ∅ |} ] |};
               plan := Some (geojson processed);
               settings := default_settings |})
  /\ (forall processed,
        convert_plan_shape_files files = Ok processed ->
        geometries_valid (geojson processed) = false ->
        convert_plan_shape_to_project geometries_valid files
        = Raise ValidationError).
Proof.
  unfold convert_plan_shape_to_project, convert_plan_shape_files,
    validate_feature_collection.
  destruct (shape_file_conversion files "EPSG:4326") as [converted|]; simpl;
    [|split; [intros project; split; [discriminate |];
              by intros (? & ? & ? & ? & _) | discriminate]].
  destruct (process_plan_geojson converted) as [processed|]; simpl;
    [|split; [intros project; split; [discriminate |];
              by intros (? & ? & ? & ? & _) | discriminate]].
  split.
  - intros project.
    destruct (geometries_valid (geojson processed)) eqn:Hvalid; simpl.
    + unfold complete_project_file. simpl.
      destruct (unary_union _) as [j|] eqn:Hu; simpl.
      * destruct (make_feature j) as [f|] eqn:Hm; simpl.
        -- apply make_feature_ok in Hm as (t & coords & -> & ->). split.
           ++ intros [= <-]. exists processed, t, coords. by rewrite Hu.
           ++ intros (processed' & t' & coords' & [= <-] & _ & Hu' & ->).
              rewrite Hu in Hu'. injection Hu' as Ht ->.
              by apply type_name_inj in Ht as ->.
        -- split; [discriminate |].
           intros (processed' & t' & coords' & [= <-] & _ & Hu' & _).
           rewrite Hu in Hu'. injection Hu' as ->.
           assert (exists f, make_feature (JGeometry (type_name t') coords')
                             = Ok f) as [f Hf]
             by (eexists; apply make_feature_ok; eauto).
           congruence.
      * split; [discriminate |].
        intros (processed' & t' & coords' & [= <-] & _ & Hu' & _). congruence.
    + split; [discriminate |].
      intros (processed' & t' & coords' & [= <-] & Hv & _). congruence.
  - intros processed' [= <-] Hvalid. by rewrite Hvalid.
Qed.

End ProjectEndpoint.

Section EmptyDataset.
Context {B : Backend}.
Variable geometries_valid : FeatureCollection -> bool.

Lemma converted_features files converted f d g :
  shape_file_conversion files "EPSG:4326" = Ok converted ->
  List.filter is_candidate files = [f] ->
  write_files fresh_dir files = Ok d ->
  read_candidate d (filename f) = Ok g ->
  length (features (geojson converted)) = length (rows g).
Proof.
  intros Hc Hf Hw Hr.
  apply shape_file_conversion_inv in Hc
    as (f' & d' & g' & original & g'' & out & Hf' & Hw' & Hr' & Hres & Ht & ->).
  rewrite Hf in Hf'. injection Hf' as <-.
  rewrite Hw in Hw'. injection Hw' as <-.
  rewrite Hr in Hr'. injection Hr' as <-.
  apply to_crs_inv in Ht as (src & dst & _ & _ & ->).
  apply resolve_crs_tagged in Hres as [Hrows _].
  simpl. by rewrite length_fmap, Hrows.
Qed.

(** A dataset without rows never gives a plan.  When its conversion goes
    through, both plan endpoints stop with the [IndexError] of
    [all_properties[0]], which is not an error the code raises on
    purpose. *)
Theorem empty_dataset_index_error files f d g :
  List.filter is_candidate files = [f] ->
  write_files fresh_dir files = Ok d ->
  read_candidate d (filename f) = Ok g ->
  rows g = [] ->
  (forall plan, convert_plan_shape_files files <> Ok plan)
  /\ (forall converted,
        shape_file_conversion files "EPSG:4326" = Ok converted ->
        convert_plan_shape_files files = Raise IndexError
        /\ convert_plan_shape_to_project geometries_valid files
           = Raise IndexError).
Proof.
  intros Hf Hw Hr Hrows.
  assert (forall converted,
            shape_file_conversion files "EPSG:4326" = Ok converted ->
            process_plan_geojson converted = Raise IndexError) as Hempty.
  { intros converted Hc.
    pose proof (converted_features _ _ _ _ _ Hc Hf Hw Hr) as Hlen.
    rewrite Hrows in Hlen. unfold process_plan_geojson.
    by destruct (features (geojson converted)). }
  split.
  - intros plan. unfold convert_plan_shape_files.
    destruct (shape_file_conversion files "EPSG:4326") as [converted|] eqn:Hc;
      simpl; [|discriminate].
    by rewrite (Hempty converted eq_refl).
  - intros converted Hc.
    unfold convert_plan_shape_files, convert_plan_shape_to_project.
    rewrite Hc. simpl. by rewrite (Hempty converted Hc).
Qed.

End EmptyDataset.

(** ** The further statements at concrete inputs *)

Lemma matches_spec_run : Epsg.matches "epsg:4326" = true.
Proof.
  apply EpsgFacts.matches_spec. exists "epsg", "4326", EmptyString.
  split_and!; [reflexivity | by right | reflexivity | by left | by left].
Defined.

Lemma shape_file_conversion_resolved_run :
  exists eff,
    features (geojson field_plan)
    = @reproject field_backend eff "EPSG:4326"
        <$> [rated "rate" (VNum 10); rated "rate" (VNum 40)].
Proof.
  destruct (@shape_file_conversion_resolved field_backend field_upload
              "EPSG:4326" "Field.ZIP" [("/tmp/tmpq3/notes.txt", []);
                                       ("/tmp/tmpq3/Field.ZIP", [])]
              {| crs := None;
                 rows := [rated "rate" (VNum 10); rated "rate" (VNum 40)] |}
              "EPSG:4326" field_plan
              eq_refl eq_refl eq_refl eq_refl eq_refl)
    as (eff & Hfeatures & _).
  exists eff. exact Hfeatures.
Defined.

Lemma candidate_count_decides_run :
  @shape_file_conversion field_backend
    [upload "field.dbf"; upload "field.prj"; upload ".zip"] "EPSG:4326"
  = Raise NoSpatialData.
Proof.
  apply (proj1 (@candidate_count_decides field_backend _ _)).
  repeat constructor.
Defined.

Lemma file_name_is_stem_run :
  exists f ext,
    f ∈ field_upload
    /\ List.filter is_candidate field_upload = [f]
    /\ filename f = file_name field_plan +:+ ext
    /\ (Str.lower ext = ".shp" \/ Str.lower ext = ".zip"
        \/ Str.lower ext = ".json" \/ Str.lower ext = ".geojson")
    /\ input_crs field_plan = "EPSG:4326".
Proof.
  apply (@file_name_is_stem field_backend field_upload "EPSG:4326" field_plan).
  reflexivity.
Defined.

Lemma archive_test_agrees_run :
  Str.endswith (Str.lower "Field.ZIP") ".zip" = true
  <-> Str.lower (Str.splitext "Field.ZIP").2 = ".zip".
Proof. apply (archive_test_agrees (upload "Field.ZIP")). reflexivity. Defined.

Lemma process_plan_geojson_succeeds_iff_run :
  exists plan', process_plan_geojson three_rates = Ok plan'.
Proof.
  apply (proj2 (process_plan_geojson_succeeds_iff three_rates)).
  exists (rated "rate" (VNum 10)),
    [rated "rate" (VNum 20); rated "rate" (VNum 30)], "rate".
  split_and!.
  - reflexivity.
  - vm_compute. reflexivity.
  - repeat constructor; apply rated_numeric.
  - apply Exists_cons_hd. vm_compute. reflexivity.
Defined.

Lemma process_plan_geojson_errors_run :
  (ValueError = IndexError /\ features (geojson no_positive_rate) = [])
  \/ exists first rest,
       features (geojson no_positive_rate) = first :: rest
       /\ ((ValueError = NoUniqueRateKey
            /\ size (known_rate_keys (properties first)) <> 1%nat)
           \/ exists k,
                known_rate_keys (properties first) = {[ k ]}
                /\ ((ValueError = KeyError k
                     /\ Exists (fun f => properties f !! k = None)
                               (features (geojson no_positive_rate)))
                    \/ (ValueError = TypeError
                        /\ Exists (fun f => exists v,
                                     properties f !! k = Some v
                                     /\ as_number v = None)
                                  (features (geojson no_positive_rate)))
                    \/ (ValueError = ValueError
                        /\ Forall (numeric_at k)
                                  (features (geojson no_positive_rate))
                        /\ Forall (fun f => (num (rate_of k f) <= 0)%Q)
                                  (features (geojson no_positive_rate))))).
Proof.
  apply (process_plan_geojson_errors no_positive_rate ValueError).
  vm_compute. reflexivity.
Defined.

Lemma three_rates_processed :
  process_plan_geojson three_rates = Ok three_rates_done.
Proof. vm_compute. reflexivity. Defined.

Lemma process_plan_geojson_preserves_run :
  file_name three_rates_done = file_name three_rates
  /\ input_crs three_rates_done = input_crs three_rates
  /\ original_crs three_rates_done = original_crs three_rates
  /\ geometry <$> features (geojson three_rates_done)
     = geometry <$> features (geojson three_rates)
  /\ forall i f',
       features (geojson three_rates_done) !! i = Some f' ->
       exists f,
         features (geojson three_rates) !! i = Some f
         /\ forall key, key <> "V22RATE" ->
                        properties f' !! key = properties f !! key.
Proof.
  exact (process_plan_geojson_preserves _ _ three_rates_processed).
Defined.

Lemma min_rate_le_max_rate_run :
  exists lo hi,
    min_rate three_rates_done = Some lo
    /\ max_rate three_rates_done = Some hi
    /\ (0 < num lo)%Q
    /\ (num lo <= num hi)%Q.
Proof. exact (min_rate_le_max_rate _ _ three_rates_processed). Defined.


Lemma process_plan_geojson_idempotent_run :
  process_plan_geojson three_rates_done = Ok three_rates_done.
Proof.
  exact (process_plan_geojson_idempotent _ _ three_rates_processed).
Defined.

Lemma union_of_other_kind_rejected_run :
  @complete_project_file
    (with_union field_backend (fun _ => Ok JCollection))
    (only_plan [rated "rate" (VNum 10)])
  = Raise ValidationError.
Proof.
  apply (proj2 (@union_of_other_kind_rejected
                  (with_union field_backend (fun _ => Ok JCollection))
                  (only_plan [rated "rate" (VNum 10)])
                  {| features := [rated "rate" (VNum 10)] |} JCollection
                  eq_refl eq_refl eq_refl)).
  intros (t & coords & H). discriminate.
Defined.

Lemma complete_project_file_idempotent_run :
  @complete_project_file field_backend one_square_project
  = Ok one_square_project
  /\ plan one_square_project = plan (only_plan [rated "rate" (VNum 10)])
  /\ settings one_square_project
     = settings (only_plan [rated "rate" (VNum 10)]).
Proof.
  apply (@complete_project_file_idempotent field_backend
           (only_plan [rated "rate" (VNum 10)]) one_square_project).
  reflexivity.
Defined.

Lemma field_converted :
  @convert_plan_shape_files field_backend field_upload = Ok field_plan_done.
Proof. vm_compute. reflexivity. Defined.

#[local] Existing Instance field_backend.

Lemma convert_plan_shape_files_result_run :
  exists f d g eff wgs84 first rest k hi,
    List.filter is_candidate field_upload = [f]
    /\ write_files fresh_dir field_upload = Ok d
    /\ read_candidate d (filename f) = Ok g
    /\ crs_from_user_input "EPSG:4326" = Ok wgs84
    /\ match crs g with
       | None => crs_from_user_input "EPSG:4326" = Ok eff
       | Some c =>
           if Epsg.matches (crs_srs c) then eff = c
           else crs_from_user_input "EPSG:4326" = Ok eff
                /\ crs_eq c eff = true
       end
    /\ rows g = first :: rest
    /\ known_rate_keys (properties first) = {[ k ]}
    /\ is_maximum hi (positive_rates k (rows g))
    /\ features (geojson field_plan_done)
       = with_v22rate k hi <$> (reproject eff wgs84 <$> rows g)
    /\ max_rate field_plan_done = Some hi
    /\ input_crs field_plan_done = "EPSG:4326"
    /\ original_crs field_plan_done = crs_srs <$> crs g.
Proof.
  exact (convert_plan_shape_files_result field_upload field_plan_done
           field_converted).
Defined.

Lemma convert_plan_shape_to_project_result_run :
  convert_plan_shape_to_project (fun _ => true) field_upload
  = Ok {| boundaries :=
            Some {| features :=
                      [ {| geometry := square; properties := ∅ |} ] |};
          plan := Some (geojson field_plan_done);
          settings := default_settings |}.
Proof.
  apply (proj2 (proj1 (convert_plan_shape_to_project_result
                         (fun _ => true) field_upload) _)).
  exists field_plan_done, Polygon, (coordinates square).
  split_and!; [exact field_converted | reflexivity.. ].
Defined.

Lemma empty_dataset_index_error_run :
  @convert_plan_shape_files (sample_backend ["field.shp"] None [])
    [upload "field.zip"]
  = Raise IndexError.
Proof.
  refine (proj1 (proj2 (@empty_dataset_index_error
                          (sample_backend ["field.shp"] None [])
                          (fun _ => true)
                          [upload "field.zip"] (upload "field.zip")
                          [("/tmp/tmpq3/field.zip", [])]
                          {| crs := None; rows := [] |}
                          eq_refl eq_refl eq_refl eq_refl) _ _)).
  vm_compute. reflexivity.
Defined.
